(** * Verification of the SSAS form helpers and form controllers

    Shallow embedding of [src/ssas/utils/form-helpers.ts] and of the
    validation schemas and event handlers of
    [src/ssas/components/ui/ssas/individual-form.tsx] and
    [src/ssas/components/ui/ssas/corporate-form.tsx]. *)

From Stdlib Require Import ZArith QArith Qround Qpower Qabs List String Ascii Bool Lia.
Import ListNotations.

(** ** JavaScript values *)
Module JS.

(** A JavaScript string is a sequence of UTF-16 code units. *)
Definition jsstr := list Z.

(** ASCII literal to code units. *)
Definition js (s : string) : jsstr :=
  map (fun a => Z.of_nat (nat_of_ascii a)) (list_ascii_of_string s).

(** [\d] of a non-unicode regular expression: [0-9]. *)
Definition is_digit (c : Z) : bool := (48 <=? c)%Z && (c <=? 57)%Z.

Definition slice (i j : nat) (s : jsstr) : jsstr := firstn (j - i) (skipn i s).

(** A JavaScript number.  A finite number is kept as the exact rational
    value of its double (the sign of a zero is not kept: [-0] and [0],
    which are [===], are both [Fin 0]); the special values are kept
    apart. *)
Inductive jsnum : Type :=
| Fin (q : Q)
| NaN
| PosInf
| NegInf.

End JS.
Import JS.

(** ** IEEE 754 binary64 *)
Module Double.

(** Round a rational to an integer, halves to even. *)
Definition round_half_even (r : Q) : Z :=
  let f := Qfloor r in
  let d := (r - inject_Z f)%Q in
  if negb (Qle_bool (1 # 2) d) then f
  else if negb (Qle_bool d (1 # 2)) then (f + 1)%Z
  else if Z.even f then f else (f + 1)%Z.

(** [floor(log2 q)] for [q > 0]. *)
Definition qlog2 (q : Q) : Z :=
  let k := (Z.log2 (Qnum q) - Z.log2 (Zpos (Qden q)))%Z in
  if negb (Qle_bool (Qpower 2 k) q) then (k - 1)%Z else k.

(** Nearest double to [q > 0], ties to even (53-bit significand, least
    exponent -1074 for the subnormals); [None] when it rounds to
    [2^1024] or beyond, that is to Infinity. *)
Definition round_pos (q : Q) : option Q :=
  let e := Z.max (-1074) (qlog2 q - 52) in
  let m := round_half_even (q * Qpower 2 (- e)) in
  let v := (inject_Z m * Qpower 2 e)%Q in
  if Qle_bool (Qpower 2 1024) v then None else Some (Qred v).

(** The Number value of an exact decimal (the rounding of StringToNumber
    and of [parseFloat]). *)
Definition to_double (q : Q) : jsnum :=
  let q := Qred q in
  if Qeq_bool q 0 then Fin 0
  else if Qle_bool 0 q then
    match round_pos q with Some v => Fin v | None => PosInf end
  else
    match round_pos (- q) with Some v => Fin (Qred (- v)) | None => NegInf end.

Fixpoint count_digits (fuel : nat) (n : Z) : Z :=
  match fuel with
  | O => 0
  | S f => if (n <? 10)%Z then 1%Z else (1 + count_digits f (n / 10))%Z
  end.

(** Number of decimal digits of [n > 0]. *)
Definition ndigits (n : Z) : Z := count_digits (S (Z.to_nat (Z.log2 n))) n.

(** [floor(log10 q)] for [q > 0]. *)
Definition qlog10 (q : Q) : Z :=
  let k := (ndigits (Qnum q) - ndigits (Zpos (Qden q)))%Z in
  if negb (Qle_bool (Qpower 10 k) q) then (k - 1)%Z else k.

(** Number::toString's choice at [k] significant digits for the double
    [x > 0]: among the [k]-digit decimals next to [x] (below and above),
    those that read back as [x]; the closer one, the one with an even last
    digit on a tie. *)
Definition shortest_at (x : Q) (k : Z) : option Q :=
  let s := Qpower 10 (qlog10 x - k + 1) in
  let lo := Qfloor (x / s) in
  let hi := Qceiling (x / s) in
  let ok n := match to_double (inject_Z n * s) with
              | Fin y => Qeq_bool y x
              | _ => false
              end in
  match ok lo, ok hi with
  | true, true =>
      let dlo := (x - inject_Z lo * s)%Q in
      let dhi := (inject_Z hi * s - x)%Q in
      if negb (Qle_bool dhi dlo) then Some (inject_Z lo * s)%Q
      else if negb (Qle_bool dlo dhi) then Some (inject_Z hi * s)%Q
      else if Z.even lo then Some (inject_Z lo * s)%Q else Some (inject_Z hi * s)%Q
  | true, false => Some (inject_Z lo * s)%Q
  | false, true => Some (inject_Z hi * s)%Q
  | false, false => None
  end.

Fixpoint shortest_from (fuel : nat) (x : Q) (k : Z) : Q :=
  match fuel with
  | O => x
  | S f => match shortest_at x k with
           | Some y => y
           | None => shortest_from f x (k + 1)%Z
           end
  end.

(** The shortest decimal that reads back as the double [x] (the digits of
    [String(x)], which is also the decimal ICU formats): at most 17
    significant digits are needed. *)
Definition shortest (x : Q) : Q :=
  if Qeq_bool x 0 then 0
  else if Qle_bool 0 x then shortest_from 17 x 1
  else (- shortest_from 17 (- x) 1)%Q.

End Double.
Import Double.

(** ** [form-helpers.ts] *)
Module FormHelpers.

(** [number.replace(/\D/g, "")] *)
Definition strip_non_digits (s : jsstr) : jsstr := filter is_digit s.

(** Does [(\d{2})(\d{4})(\d{6})] match at the head of [s]? *)
Definition phone_match_at (s : jsstr) : bool :=
  (12 <=? List.length s)%nat && forallb is_digit (firstn 12 s).

(** [s.replace(/(\d{2})(\d{4})(\d{6})/, "+$1 $2 $3")]: the regular
    expression is neither global nor anchored, so the leftmost match is
    replaced and the rest of the string is kept. *)
Fixpoint replace_phone (s : jsstr) : jsstr :=
  if phone_match_at s then
    [43%Z] ++ slice 0 2 s ++ [32%Z] ++ slice 2 6 s ++ [32%Z] ++ slice 6 12 s
      ++ skipn 12 s
  else
    match s with
    | [] => []
    | c :: s' => c :: replace_phone s'
    end.

Definition formatPhoneNumber (number : jsstr) : jsstr :=
  let cleaned := strip_non_digits number in
  replace_phone cleaned.

(** Does [(\d{4})(\d{6})] match at the head of [s]? *)
Definition mobile_match_at (s : jsstr) : bool :=
  (10 <=? List.length s)%nat && forallb is_digit (firstn 10 s).

(** [s.replace(/(\d{4})(\d{6})/, "$1 $2")]: the leftmost match is
    replaced and the rest of the string is kept. *)
Fixpoint replace_mobile (s : jsstr) : jsstr :=
  if mobile_match_at s then
    slice 0 4 s ++ [32%Z] ++ slice 4 10 s ++ skipn 10 s
  else
    match s with
    | [] => []
    | c :: s' => c :: replace_mobile s'
    end.

Definition formatMobileNumber (number : jsstr) : jsstr :=
  let cleaned := strip_non_digits number in
  replace_mobile cleaned.


(** *** [parseFloat] *)

(** StrWhiteSpaceChar: WhiteSpace and LineTerminator code units. *)
Definition is_ws (c : Z) : bool :=
  existsb (Z.eqb c)
    [9; 10; 11; 12; 13; 32; 160; 5760; 8192; 8193; 8194; 8195; 8196; 8197;
     8198; 8199; 8200; 8201; 8202; 8232; 8233; 8239; 8287; 12288; 65279]%Z.

Fixpoint skip_ws (s : jsstr) : jsstr :=
  match s with
  | c :: s' => if is_ws c then skip_ws s' else s
  | [] => []
  end.

(** Longest prefix of decimal digits, and the rest. *)
Fixpoint take_digits (s : jsstr) : jsstr * jsstr :=
  match s with
  | c :: s' =>
      if is_digit c then let (d, r) := take_digits s' in (c :: d, r)
      else ([], s)
  | [] => ([], [])
  end.

(** Value of a digit sequence, read from the accumulator [a]. *)
Definition dval_from (a : Z) (ds : jsstr) : Z :=
  fold_left (fun acc d => acc * 10 + (d - 48))%Z ds a.

Definition dval (ds : jsstr) : Z := dval_from 0 ds.

(** Optional sign: [true] for a minus sign. *)
Definition take_sign (s : jsstr) : bool * jsstr :=
  match s with
  | 43%Z :: r => (false, r)
  | 45%Z :: r => (true, r)
  | _ => (false, s)
  end.

(** ExponentPart, when present with at least one digit. *)
Definition take_exponent (s : jsstr) : Z :=
  match s with
  | e :: r =>
      if (e =? 101)%Z || (e =? 69)%Z then
        let (neg, r') := take_sign r in
        let (de, _) := take_digits r' in
        match de with
        | [] => 0%Z
        | _ => if neg then (- dval de)%Z else dval de
        end
      else 0%Z
  | [] => 0%Z
  end.

(** The longest prefix that is an unsigned StrDecimalLiteral without
    Infinity: [None] when it has no digit. *)
Definition parse_unsigned (s : jsstr) : option Q :=
  let (d1, r1) := take_digits s in
  let (d2, r2) :=
    match r1 with
    | 46%Z :: r => take_digits r
    | _ => ([], r1)
    end in
  match d1, d2 with
  | [], [] => None
  | _, _ =>
      Some (inject_Z (dval (d1 ++ d2)) *
            Qpower (10 # 1) (take_exponent r2 - Z.of_nat (List.length d2)))
  end.

Fixpoint is_prefix (p s : jsstr) : bool :=
  match p, s with
  | [], _ => true
  | a :: p', b :: s' => (a =? b)%Z && is_prefix p' s'
  | _ :: _, [] => false
  end.

(** [parseFloat(string)]: the longest decimal prefix, rounded to the
    nearest double (to Infinity beyond the largest one). *)
Definition parseFloat (str : jsstr) : jsnum :=
  let (neg, s) := take_sign (skip_ws str) in
  if is_prefix (js "Infinity") s then (if neg then NegInf else PosInf)
  else
    match parse_unsigned s with
    | None => NaN
    | Some q => to_double (if neg then - q else q)
    end.

(** *** [Intl.NumberFormat("en-GB", { style: "currency", currency: "GBP" })] *)

Definition pound : Z := 163.
Definition infinity_sign : Z := 8734.

Definition Qltb (x y : Q) : bool := negb (Qle_bool y x).

(** Decimal digits of a non-negative integer, most significant first. *)
Fixpoint digits_fuel (fuel : nat) (n : Z) : jsstr :=
  match fuel with
  | O => []
  | S f =>
      if (n <? 10)%Z then [48 + n]%Z
      else digits_fuel f (n / 10) ++ [48 + n mod 10]%Z
  end.

Definition digits_of (n : Z) : jsstr := digits_fuel (S (Z.to_nat (Z.log2 n))) n.

(** Grouping separators of en-GB: a comma before each group of three
    integer digits counted from the right. *)
Fixpoint group_rev (l : jsstr) : jsstr :=
  match l with
  | a :: b :: c :: ((_ :: _) as rest) => a :: b :: c :: 44%Z :: group_rev rest
  | _ => l
  end.

Definition group3 (ds : jsstr) : jsstr := rev (group_rev (rev ds)).

(** ToRawFixed with two fraction digits: the amount in pence, ties away
    from zero. *)
Definition round_cents (x : Q) : Z := Qfloor (Qabs x * 100 + (1 # 2)).

Definition two_digits (m : Z) : jsstr := [48 + m / 10; 48 + m mod 10]%Z.

(** ICU formats a double from its shortest decimal [shortest x], rounded
    half away from zero to two fraction digits. *)
Definition format_gbp (n : jsnum) : jsstr :=
  match n with
  | NaN => pound :: js "NaN"
  | PosInf => [pound; infinity_sign]
  | NegInf => [45; pound; infinity_sign]%Z
  | Fin x =>
      let c := round_cents (shortest x) in
      (if Qltb x 0 then [45%Z] else []) ++ [pound]
        ++ group3 (digits_of (c / 100)) ++ [46%Z] ++ two_digits (c mod 100)
  end.

(** The argument of [formatCurrency]: [number | string]. *)
Inductive amount : Type :=
| ANum (n : jsnum)
| AStr (s : jsstr).

Definition formatCurrency (a : amount) : jsstr :=
  let num := match a with AStr s => parseFloat s | ANum n => n end in
  format_gbp num.

(** [/[^0-9.-]+/g] removes every code unit outside [0-9], '.', '-'. *)
Definition currency_char (c : Z) : bool := is_digit c || (c =? 46)%Z || (c =? 45)%Z.

Definition parseCurrency (value : jsstr) : jsnum :=
  parseFloat (filter currency_char value).


(** *** [validateDate] *)

(** [0[1-9]|[12][0-9]|3[01]] on two code units. *)
Definition day_ok (c1 c2 : Z) : bool :=
  ((c1 =? 48)%Z && (49 <=? c2)%Z && (c2 <=? 57)%Z)
  || (((c1 =? 49)%Z || (c1 =? 50)%Z) && is_digit c2)
  || ((c1 =? 51)%Z && ((c2 =? 48)%Z || (c2 =? 49)%Z)).

(** [0[1-9]|1[0-2]] on two code units. *)
Definition month_ok (c1 c2 : Z) : bool :=
  ((c1 =? 48)%Z && (49 <=? c2)%Z && (c2 <=? 57)%Z)
  || ((c1 =? 49)%Z && (48 <=? c2)%Z && (c2 <=? 50)%Z).

(** [/^(0[1-9]|[12][0-9]|3[01])-(0[1-9]|1[0-2])-\d{4}$/.test(date)]: every
    alternative has a fixed width, so a match spans exactly ten code units. *)
Definition validateDate (date : jsstr) : bool :=
  match date with
  | [d1; d2; h1; m1; m2; h2; y1; y2; y3; y4] =>
      day_ok d1 d2 && (h1 =? 45)%Z && month_ok m1 m2 && (h2 =? 45)%Z
        && forallb is_digit [y1; y2; y3; y4]
  | _ => false
  end.

(** *** [formatDate] *)

Inductive exn : Type :=
| RangeError.

(** A computation that returns a value or throws. *)
Inductive result (A : Type) : Type :=
| Ok (a : A)
| Throw (e : exn).
Arguments Ok {A} a.
Arguments Throw {A} e.

(** [try { body } catch { handler }] *)
Definition try_catch {A} (body : result A) (handler : exn -> result A) : result A :=
  match body with
  | Ok a => Ok a
  | Throw e => handler e
  end.

Section FormatDate.
(** [new Date(string)] and date-fns [format] are library code.  A parsed
    date is a time value of type [time], or [None] for an Invalid Date;
    [render] is the "dd-MM-yyyy" rendering of a valid date. *)
Variable time : Type.
Variable new_Date : jsstr -> option time.
Variable render : time -> jsstr.

(** date-fns [format] throws a RangeError on an Invalid Date. *)
Definition format_ddMMyyyy (d : option time) : result jsstr :=
  match d with
  | None => Throw RangeError
  | Some t => Ok (render t)
  end.

Definition formatDate (date : jsstr) : result jsstr :=
  try_catch (format_ddMMyyyy (new_Date date)) (fun _ => Ok date).

End FormatDate.

End FormHelpers.
Import FormHelpers.

(** ** Form values of [individual-form.tsx] (z.infer of [individualFormSchema]) *)

Module PreviousAddress.
(** An element of [previousAddresses]. *)
Record t : Type := {
  address1 : jsstr;
  address2 : jsstr;
  address3 : option jsstr;
  address4 : option jsstr;
  postcode : jsstr;
  country : jsstr;
  yearsAtAddress : jsnum;
  monthsAtAddress : jsnum
}.
End PreviousAddress.

Module CommunicationAddress.
(** The optional [communicationAddress]. *)
Record t : Type := {
  address1 : jsstr;
  address2 : jsstr;
  address3 : option jsstr;
  address4 : option jsstr;
  postcode : jsstr;
  country : jsstr
}.
End CommunicationAddress.

Module Individual.
(** The values of the individual form. *)
Record t : Type := {
  pstrId : jsstr;
  employeeId : jsnum;
  title : jsstr;
  firstName : jsstr;
  middleName : option jsstr;
  surname : jsstr;
  isSigner : bool;
  isTrusteeOfScheme : bool;
  dateOfBirth : jsstr;
  gender : jsstr;
  primaryNationality : jsstr;
  countryOfBirth : jsstr;
  hasDualNationality : bool;
  secondNationality : option jsstr;
  telephone : jsstr;
  mobile : jsstr;
  email : jsstr;
  typeOfEmployment : jsstr;
  occupation : jsstr;
  marketingPreferences : list jsstr;
  address1 : jsstr;
  address2 : jsstr;
  address3 : option jsstr;
  address4 : option jsstr;
  postcode : jsstr;
  country : jsstr;
  isCurrentAddress : bool;
  isPermanentAddress : bool;
  isCommunicationAddress : bool;
  yearsAtAddress : jsnum;
  monthsAtAddress : jsnum;
  previousAddresses : list PreviousAddress.t;
  communicationAddress : option CommunicationAddress.t;
  taxContributingCountry : list jsstr;
  foreignTinId : option jsstr
}.

Definition set_hasDualNationality (x : bool) (r : t) : t :=
  {|
    pstrId := pstrId r; employeeId := employeeId r; title := title r;
    firstName := firstName r; middleName := middleName r;
    surname := surname r; isSigner := isSigner r;
    isTrusteeOfScheme := isTrusteeOfScheme r; dateOfBirth := dateOfBirth r;
    gender := gender r; primaryNationality := primaryNationality r;
    countryOfBirth := countryOfBirth r; hasDualNationality := x;
    secondNationality := secondNationality r; telephone := telephone r;
    mobile := mobile r; email := email r;
    typeOfEmployment := typeOfEmployment r; occupation := occupation r;
    marketingPreferences := marketingPreferences r; address1 := address1 r;
    address2 := address2 r; address3 := address3 r; address4 := address4 r;
    postcode := postcode r; country := country r;
    isCurrentAddress := isCurrentAddress r;
    isPermanentAddress := isPermanentAddress r;
    isCommunicationAddress := isCommunicationAddress r;
    yearsAtAddress := yearsAtAddress r; monthsAtAddress := monthsAtAddress r;
    previousAddresses := previousAddresses r;
    communicationAddress := communicationAddress r;
    taxContributingCountry := taxContributingCountry r;
    foreignTinId := foreignTinId r |}.

Definition set_secondNationality (x : option jsstr) (r : t) : t :=
  {|
    pstrId := pstrId r; employeeId := employeeId r; title := title r;
    firstName := firstName r; middleName := middleName r;
    surname := surname r; isSigner := isSigner r;
    isTrusteeOfScheme := isTrusteeOfScheme r; dateOfBirth := dateOfBirth r;
    gender := gender r; primaryNationality := primaryNationality r;
    countryOfBirth := countryOfBirth r;
    hasDualNationality := hasDualNationality r; secondNationality := x;
    telephone := telephone r; mobile := mobile r; email := email r;
    typeOfEmployment := typeOfEmployment r; occupation := occupation r;
    marketingPreferences := marketingPreferences r; address1 := address1 r;
    address2 := address2 r; address3 := address3 r; address4 := address4 r;
    postcode := postcode r; country := country r;
    isCurrentAddress := isCurrentAddress r;
    isPermanentAddress := isPermanentAddress r;
    isCommunicationAddress := isCommunicationAddress r;
    yearsAtAddress := yearsAtAddress r; monthsAtAddress := monthsAtAddress r;
    previousAddresses := previousAddresses r;
    communicationAddress := communicationAddress r;
    taxContributingCountry := taxContributingCountry r;
    foreignTinId := foreignTinId r |}.

Definition set_isCommunicationAddress (x : bool) (r : t) : t :=
  {|
    pstrId := pstrId r; employeeId := employeeId r; title := title r;
    firstName := firstName r; middleName := middleName r;
    surname := surname r; isSigner := isSigner r;
    isTrusteeOfScheme := isTrusteeOfScheme r; dateOfBirth := dateOfBirth r;
    gender := gender r; primaryNationality := primaryNationality r;
    countryOfBirth := countryOfBirth r;
    hasDualNationality := hasDualNationality r;
    secondNationality := secondNationality r; telephone := telephone r;
    mobile := mobile r; email := email r;
    typeOfEmployment := typeOfEmployment r; occupation := occupation r;
    marketingPreferences := marketingPreferences r; address1 := address1 r;
    address2 := address2 r; address3 := address3 r; address4 := address4 r;
    postcode := postcode r; country := country r;
    isCurrentAddress := isCurrentAddress r;
    isPermanentAddress := isPermanentAddress r; isCommunicationAddress := x;
    yearsAtAddress := yearsAtAddress r; monthsAtAddress := monthsAtAddress r;
    previousAddresses := previousAddresses r;
    communicationAddress := communicationAddress r;
    taxContributingCountry := taxContributingCountry r;
    foreignTinId := foreignTinId r |}.

Definition set_yearsAtAddress (x : jsnum) (r : t) : t :=
  {|
    pstrId := pstrId r; employeeId := employeeId r; title := title r;
    firstName := firstName r; middleName := middleName r;
    surname := surname r; isSigner := isSigner r;
    isTrusteeOfScheme := isTrusteeOfScheme r; dateOfBirth := dateOfBirth r;
    gender := gender r; primaryNationality := primaryNationality r;
    countryOfBirth := countryOfBirth r;
    hasDualNationality := hasDualNationality r;
    secondNationality := secondNationality r; telephone := telephone r;
    mobile := mobile r; email := email r;
    typeOfEmployment := typeOfEmployment r; occupation := occupation r;
    marketingPreferences := marketingPreferences r; address1 := address1 r;
    address2 := address2 r; address3 := address3 r; address4 := address4 r;
    postcode := postcode r; country := country r;
    isCurrentAddress := isCurrentAddress r;
    isPermanentAddress := isPermanentAddress r;
    isCommunicationAddress := isCommunicationAddress r; yearsAtAddress := x;
    monthsAtAddress := monthsAtAddress r;
    previousAddresses := previousAddresses r;
    communicationAddress := communicationAddress r;
    taxContributingCountry := taxContributingCountry r;
    foreignTinId := foreignTinId r |}.

Definition set_monthsAtAddress (x : jsnum) (r : t) : t :=
  {|
    pstrId := pstrId r; employeeId := employeeId r; title := title r;
    firstName := firstName r; middleName := middleName r;
    surname := surname r; isSigner := isSigner r;
    isTrusteeOfScheme := isTrusteeOfScheme r; dateOfBirth := dateOfBirth r;
    gender := gender r; primaryNationality := primaryNationality r;
    countryOfBirth := countryOfBirth r;
    hasDualNationality := hasDualNationality r;
    secondNationality := secondNationality r; telephone := telephone r;
    mobile := mobile r; email := email r;
    typeOfEmployment := typeOfEmployment r; occupation := occupation r;
    marketingPreferences := marketingPreferences r; address1 := address1 r;
    address2 := address2 r; address3 := address3 r; address4 := address4 r;
    postcode := postcode r; country := country r;
    isCurrentAddress := isCurrentAddress r;
    isPermanentAddress := isPermanentAddress r;
    isCommunicationAddress := isCommunicationAddress r;
    yearsAtAddress := yearsAtAddress r; monthsAtAddress := x;
    previousAddresses := previousAddresses r;
    communicationAddress := communicationAddress r;
    taxContributingCountry := taxContributingCountry r;
    foreignTinId := foreignTinId r |}.

Definition set_previousAddresses (x : list PreviousAddress.t) (r : t) : t :=
  {|
    pstrId := pstrId r; employeeId := employeeId r; title := title r;
    firstName := firstName r; middleName := middleName r;
    surname := surname r; isSigner := isSigner r;
    isTrusteeOfScheme := isTrusteeOfScheme r; dateOfBirth := dateOfBirth r;
    gender := gender r; primaryNationality := primaryNationality r;
    countryOfBirth := countryOfBirth r;
    hasDualNationality := hasDualNationality r;
    secondNationality := secondNationality r; telephone := telephone r;
    mobile := mobile r; email := email r;
    typeOfEmployment := typeOfEmployment r; occupation := occupation r;
    marketingPreferences := marketingPreferences r; address1 := address1 r;
    address2 := address2 r; address3 := address3 r; address4 := address4 r;
    postcode := postcode r; country := country r;
    isCurrentAddress := isCurrentAddress r;
    isPermanentAddress := isPermanentAddress r;
    isCommunicationAddress := isCommunicationAddress r;
    yearsAtAddress := yearsAtAddress r; monthsAtAddress := monthsAtAddress r;
    previousAddresses := x; communicationAddress := communicationAddress r;
    taxContributingCountry := taxContributingCountry r;
    foreignTinId := foreignTinId r |}.

Definition set_communicationAddress (x : option CommunicationAddress.t) (r : t) : t :=
  {|
    pstrId := pstrId r; employeeId := employeeId r; title := title r;
    firstName := firstName r; middleName := middleName r;
    surname := surname r; isSigner := isSigner r;
    isTrusteeOfScheme := isTrusteeOfScheme r; dateOfBirth := dateOfBirth r;
    gender := gender r; primaryNationality := primaryNationality r;
    countryOfBirth := countryOfBirth r;
    hasDualNationality := hasDualNationality r;
    secondNationality := secondNationality r; telephone := telephone r;
    mobile := mobile r; email := email r;
    typeOfEmployment := typeOfEmployment r; occupation := occupation r;
    marketingPreferences := marketingPreferences r; address1 := address1 r;
    address2 := address2 r; address3 := address3 r; address4 := address4 r;
    postcode := postcode r; country := country r;
    isCurrentAddress := isCurrentAddress r;
    isPermanentAddress := isPermanentAddress r;
    isCommunicationAddress := isCommunicationAddress r;
    yearsAtAddress := yearsAtAddress r; monthsAtAddress := monthsAtAddress r;
    previousAddresses := previousAddresses r; communicationAddress := x;
    taxContributingCountry := taxContributingCountry r;
    foreignTinId := foreignTinId r |}.

End Individual.

(** ** Form values of [corporate-form.tsx] (z.infer of [corporateFormSchema]) *)

Module ManagementPerson.
(** An element of [contributorManagement]. *)
Record t : Type := {
  firstName : jsstr;
  middleName : option jsstr;
  surname : jsstr;
  position : jsstr
}.
End ManagementPerson.

Module Corporate.
(** The values of the corporate form. *)
Record t : Type := {
  pstrId : jsstr;
  pensionSchemeName : jsstr;
  contactName : jsstr;
  positionInOrganization : jsstr;
  pensionProvider : jsstr;
  telephone : jsstr;
  mobile : jsstr;
  email : jsstr;
  addressType : jsstr;
  address1 : jsstr;
  address2 : jsstr;
  address3 : option jsstr;
  address4 : option jsstr;
  postcode : jsstr;
  country : jsstr;
  isCurrentAddress : bool;
  isPermanentAddress : bool;
  isCommunicationAddress : bool;
  howManyToSign : jsnum;
  howManyFromCorporateTrustee : jsnum;
  howManyMembers : jsnum;
  isOccupationalScheme : bool;
  permitAssignmentOfInterest : bool;
  hasDeductionFromEmployeeWages : bool;
  dateOfRegistration : jsstr;
  hasCorporateTrustee : bool;
  depositPerAnnum : jsnum;
  annualOutgoings : jsnum;
  anticipatedActivity : jsnum;
  anticipatedTransactions : jsnum;
  countryOfPayments : list jsstr;
  schemeRegistrationCountry : jsstr;
  contributorLegalName : jsstr;
  contributorTradingName : option jsstr;
  contributorAddress1 : jsstr;
  contributorAddress2 : option jsstr;
  contributorAddress3 : option jsstr;
  contributorAddress4 : option jsstr;
  contributorPostcode : jsstr;
  contributorCountry : jsstr;
  contributorDateOfIncorporation : jsstr;
  contributorDateOfRegistration : jsstr;
  contributorDateStartedTrading : jsstr;
  contributorNatureOfBusiness : jsstr;
  contributorCountriesOperatesIn : list jsstr;
  contributorManagement : list ManagementPerson.t;
  professionalCoSignatory : jsstr;
  coSignCompanyName : jsstr;
  coSignAddress : jsstr;
  coSignTelephone : jsstr;
  coSignEmail : jsstr;
  regulatorReferenceNumber : jsstr;
  tcAcknowledgement : bool;
  accountType : list jsstr;
  openingBalance : jsstr;
  sourceOfInitialFunds : jsstr;
  sourceOfFunds : list jsstr;
  otherSourceOfFunds : option jsstr;
  valueOfFunds : jsstr;
  countryOfFunds : list jsstr
}.

Definition set_schemeRegistrationCountry (x : jsstr) (r : t) : t :=
  {|
    pstrId := pstrId r; pensionSchemeName := pensionSchemeName r;
    contactName := contactName r;
    positionInOrganization := positionInOrganization r;
    pensionProvider := pensionProvider r; telephone := telephone r;
    mobile := mobile r; email := email r; addressType := addressType r;
    address1 := address1 r; address2 := address2 r; address3 := address3 r;
    address4 := address4 r; postcode := postcode r; country := country r;
    isCurrentAddress := isCurrentAddress r;
    isPermanentAddress := isPermanentAddress r;
    isCommunicationAddress := isCommunicationAddress r;
    howManyToSign := howManyToSign r;
    howManyFromCorporateTrustee := howManyFromCorporateTrustee r;
    howManyMembers := howManyMembers r;
    isOccupationalScheme := isOccupationalScheme r;
    permitAssignmentOfInterest := permitAssignmentOfInterest r;
    hasDeductionFromEmployeeWages := hasDeductionFromEmployeeWages r;
    dateOfRegistration := dateOfRegistration r;
    hasCorporateTrustee := hasCorporateTrustee r;
    depositPerAnnum := depositPerAnnum r;
    annualOutgoings := annualOutgoings r;
    anticipatedActivity := anticipatedActivity r;
    anticipatedTransactions := anticipatedTransactions r;
    countryOfPayments := countryOfPayments r; schemeRegistrationCountry := x;
    contributorLegalName := contributorLegalName r;
    contributorTradingName := contributorTradingName r;
    contributorAddress1 := contributorAddress1 r;
    contributorAddress2 := contributorAddress2 r;
    contributorAddress3 := contributorAddress3 r;
    contributorAddress4 := contributorAddress4 r;
    contributorPostcode := contributorPostcode r;
    contributorCountry := contributorCountry r;
    contributorDateOfIncorporation := contributorDateOfIncorporation r;
    contributorDateOfRegistration := contributorDateOfRegistration r;
    contributorDateStartedTrading := contributorDateStartedTrading r;
    contributorNatureOfBusiness := contributorNatureOfBusiness r;
    contributorCountriesOperatesIn := contributorCountriesOperatesIn r;
    contributorManagement := contributorManagement r;
    professionalCoSignatory := professionalCoSignatory r;
    coSignCompanyName := coSignCompanyName r;
    coSignAddress := coSignAddress r; coSignTelephone := coSignTelephone r;
    coSignEmail := coSignEmail r;
    regulatorReferenceNumber := regulatorReferenceNumber r;
    tcAcknowledgement := tcAcknowledgement r; accountType := accountType r;
    openingBalance := openingBalance r;
    sourceOfInitialFunds := sourceOfInitialFunds r;
    sourceOfFunds := sourceOfFunds r;
    otherSourceOfFunds := otherSourceOfFunds r;
    valueOfFunds := valueOfFunds r; countryOfFunds := countryOfFunds r |}.

Definition set_telephone (x : jsstr) (r : t) : t :=
  {|
    pstrId := pstrId r; pensionSchemeName := pensionSchemeName r;
    contactName := contactName r;
    positionInOrganization := positionInOrganization r;
    pensionProvider := pensionProvider r; telephone := x;
    mobile := mobile r; email := email r; addressType := addressType r;
    address1 := address1 r; address2 := address2 r; address3 := address3 r;
    address4 := address4 r; postcode := postcode r; country := country r;
    isCurrentAddress := isCurrentAddress r;
    isPermanentAddress := isPermanentAddress r;
    isCommunicationAddress := isCommunicationAddress r;
    howManyToSign := howManyToSign r;
    howManyFromCorporateTrustee := howManyFromCorporateTrustee r;
    howManyMembers := howManyMembers r;
    isOccupationalScheme := isOccupationalScheme r;
    permitAssignmentOfInterest := permitAssignmentOfInterest r;
    hasDeductionFromEmployeeWages := hasDeductionFromEmployeeWages r;
    dateOfRegistration := dateOfRegistration r;
    hasCorporateTrustee := hasCorporateTrustee r;
    depositPerAnnum := depositPerAnnum r;
    annualOutgoings := annualOutgoings r;
    anticipatedActivity := anticipatedActivity r;
    anticipatedTransactions := anticipatedTransactions r;
    countryOfPayments := countryOfPayments r; schemeRegistrationCountry := schemeRegistrationCountry r;
    contributorLegalName := contributorLegalName r;
    contributorTradingName := contributorTradingName r;
    contributorAddress1 := contributorAddress1 r;
    contributorAddress2 := contributorAddress2 r;
    contributorAddress3 := contributorAddress3 r;
    contributorAddress4 := contributorAddress4 r;
    contributorPostcode := contributorPostcode r;
    contributorCountry := contributorCountry r;
    contributorDateOfIncorporation := contributorDateOfIncorporation r;
    contributorDateOfRegistration := contributorDateOfRegistration r;
    contributorDateStartedTrading := contributorDateStartedTrading r;
    contributorNatureOfBusiness := contributorNatureOfBusiness r;
    contributorCountriesOperatesIn := contributorCountriesOperatesIn r;
    contributorManagement := contributorManagement r;
    professionalCoSignatory := professionalCoSignatory r;
    coSignCompanyName := coSignCompanyName r;
    coSignAddress := coSignAddress r; coSignTelephone := coSignTelephone r;
    coSignEmail := coSignEmail r;
    regulatorReferenceNumber := regulatorReferenceNumber r;
    tcAcknowledgement := tcAcknowledgement r; accountType := accountType r;
    openingBalance := openingBalance r;
    sourceOfInitialFunds := sourceOfInitialFunds r;
    sourceOfFunds := sourceOfFunds r;
    otherSourceOfFunds := otherSourceOfFunds r;
    valueOfFunds := valueOfFunds r; countryOfFunds := countryOfFunds r |}.

Definition set_mobile (x : jsstr) (r : t) : t :=
  {|
    pstrId := pstrId r; pensionSchemeName := pensionSchemeName r;
    contactName := contactName r;
    positionInOrganization := positionInOrganization r;
    pensionProvider := pensionProvider r; telephone := telephone r;
    mobile := x; email := email r; addressType := addressType r;
    address1 := address1 r; address2 := address2 r; address3 := address3 r;
    address4 := address4 r; postcode := postcode r; country := country r;
    isCurrentAddress := isCurrentAddress r;
    isPermanentAddress := isPermanentAddress r;
    isCommunicationAddress := isCommunicationAddress r;
    howManyToSign := howManyToSign r;
    howManyFromCorporateTrustee := howManyFromCorporateTrustee r;
    howManyMembers := howManyMembers r;
    isOccupationalScheme := isOccupationalScheme r;
    permitAssignmentOfInterest := permitAssignmentOfInterest r;
    hasDeductionFromEmployeeWages := hasDeductionFromEmployeeWages r;
    dateOfRegistration := dateOfRegistration r;
    hasCorporateTrustee := hasCorporateTrustee r;
    depositPerAnnum := depositPerAnnum r;
    annualOutgoings := annualOutgoings r;
    anticipatedActivity := anticipatedActivity r;
    anticipatedTransactions := anticipatedTransactions r;
    countryOfPayments := countryOfPayments r; schemeRegistrationCountry := schemeRegistrationCountry r;
    contributorLegalName := contributorLegalName r;
    contributorTradingName := contributorTradingName r;
    contributorAddress1 := contributorAddress1 r;
    contributorAddress2 := contributorAddress2 r;
    contributorAddress3 := contributorAddress3 r;
    contributorAddress4 := contributorAddress4 r;
    contributorPostcode := contributorPostcode r;
    contributorCountry := contributorCountry r;
    contributorDateOfIncorporation := contributorDateOfIncorporation r;
    contributorDateOfRegistration := contributorDateOfRegistration r;
    contributorDateStartedTrading := contributorDateStartedTrading r;
    contributorNatureOfBusiness := contributorNatureOfBusiness r;
    contributorCountriesOperatesIn := contributorCountriesOperatesIn r;
    contributorManagement := contributorManagement r;
    professionalCoSignatory := professionalCoSignatory r;
    coSignCompanyName := coSignCompanyName r;
    coSignAddress := coSignAddress r; coSignTelephone := coSignTelephone r;
    coSignEmail := coSignEmail r;
    regulatorReferenceNumber := regulatorReferenceNumber r;
    tcAcknowledgement := tcAcknowledgement r; accountType := accountType r;
    openingBalance := openingBalance r;
    sourceOfInitialFunds := sourceOfInitialFunds r;
    sourceOfFunds := sourceOfFunds r;
    otherSourceOfFunds := otherSourceOfFunds r;
    valueOfFunds := valueOfFunds r; countryOfFunds := countryOfFunds r |}.

End Corporate.

(** ** The zod checks used by the schemas *)
Module Zod.

(** An issue: a custom message, or zod's own code when the schema gives
    none. *)
Inductive issue : Type :=
| Message (m : string)
| InvalidType
| InvalidEmail
| InvalidLiteral
| TooSmall
| TooBig.

Inductive seg : Type :=
| Key (k : string)
| Idx (i : nat).

Definition error : Type := (list seg * issue)%type.

Definition at_path (p : list seg) (es : list error) : list error :=
  map (fun e => (p ++ fst e, snd e)) es.

Definition at_key (k : string) (is : list issue) : list error :=
  map (fun i => ([Key k], i)) is.

(** [.min(n, { message })] and [.max(n, { message })] of a string or array. *)
Definition min_len {A} (n : nat) (i : issue) (s : list A) : list issue :=
  if (n <=? List.length s)%nat then [] else [i].

Definition max_len {A} (n : nat) (i : issue) (s : list A) : list issue :=
  if (List.length s <=? n)%nat then [] else [i].

(** [/^\d{n}$/.test(s)] *)
Definition digits_exactly (n : nat) (s : jsstr) : bool :=
  (List.length s =? n)%nat && forallb is_digit s.

Definition check (ok : bool) (i : issue) : list issue := if ok then [] else [i].

Definition num_ge (n : jsnum) (k : Q) : bool :=
  match n with Fin q => Qle_bool k q | PosInf => true | _ => false end.

Definition num_le (n : jsnum) (k : Q) : bool :=
  match n with Fin q => Qle_bool q k | NegInf => true | _ => false end.

Inductive bound : Type :=
| Min (k : Q) (i : issue)
| Max (k : Q) (i : issue).

(** [z.number()] with its bounds: NaN is an invalid type and stops the
    checks; otherwise every bound is checked. *)
Definition number (bs : list bound) (n : jsnum) : list issue :=
  match n with
  | NaN => [InvalidType]
  | _ =>
      flat_map (fun b =>
        match b with
        | Min k i => if num_ge n k then [] else [i]
        | Max k i => if num_le n k then [] else [i]
        end) bs
  end.

Fixpoint mapi_from {A B} (i : nat) (f : nat -> A -> B) (l : list A) : list B :=
  match l with
  | [] => []
  | x :: l' => f i x :: mapi_from (S i) f l'
  end.

End Zod.
Import Zod.

(** ** [individualFormSchema] *)
Module IndividualSchema.
Import Individual.

(** The [previousAddresses] element schema. *)
Definition validatePreviousAddress (a : PreviousAddress.t) : list error :=
  List.concat [
    at_key "address1" (min_len 1 (Message "Address line 1 is required") (PreviousAddress.address1 a));
    at_key "address2" (min_len 1 (Message "Address line 2 is required") (PreviousAddress.address2 a));
    at_key "postcode" (min_len 1 (Message "Postcode is required") (PreviousAddress.postcode a));
    at_key "country" (min_len 1 (Message "Country is required") (PreviousAddress.country a));
    at_key "yearsAtAddress" (number [Min 0 TooSmall] (PreviousAddress.yearsAtAddress a));
    at_key "monthsAtAddress"
      (number [Min 0 TooSmall; Max 11 TooBig] (PreviousAddress.monthsAtAddress a))].

(** The [communicationAddress] object schema. *)
Definition validateCommunicationAddress (a : CommunicationAddress.t) : list error :=
  List.concat [
    at_key "address1" (min_len 1 (Message "Address line 1 is required") (CommunicationAddress.address1 a));
    at_key "address2" (min_len 1 (Message "Address line 2 is required") (CommunicationAddress.address2 a));
    at_key "postcode" (min_len 1 (Message "Postcode is required") (CommunicationAddress.postcode a));
    at_key "country" (min_len 1 (Message "Country is required") (CommunicationAddress.country a))].

(** [individualFormSchema.safeParse]: the list of issues, empty when the
    record is accepted.  [zod_email] is zod's e-mail pattern (library
    code).  Booleans, optional strings and arrays of strings have no check
    beyond their type. *)
Definition validateIndividual (zod_email : jsstr -> bool) (r : Individual.t) : list error :=
  List.concat [
    at_key "pstrId" (min_len 1 (Message "PSTR ID is required") (pstrId r));
    at_key "employeeId" (number [Min 1 (Message "Employee ID is required")] (employeeId r));
    at_key "title" (min_len 1 (Message "Title is required") (title r));
    at_key "firstName" (min_len 1 (Message "First name is required") (firstName r));
    at_key "surname" (min_len 1 (Message "Surname is required") (surname r));
    at_key "dateOfBirth" (min_len 1 (Message "Date of birth is required") (dateOfBirth r));
    at_key "gender" (min_len 1 (Message "Gender is required") (gender r));
    at_key "primaryNationality"
      (min_len 1 (Message "Primary nationality is required") (primaryNationality r));
    at_key "countryOfBirth" (min_len 1 (Message "Country of birth is required") (countryOfBirth r));
    at_key "telephone" (check (digits_exactly 14 (telephone r))
      (Message "Phone number must be 14 digits including country code"));
    at_key "mobile" (check (digits_exactly 10 (mobile r)) (Message "Mobile number must be 10 digits"));
    at_key "email" (check (zod_email (email r)) (Message "Please enter a valid email address"));
    at_key "typeOfEmployment"
      (min_len 1 (Message "Type of employment is required") (typeOfEmployment r));
    at_key "occupation" (min_len 1 (Message "Occupation is required") (occupation r));
    at_key "address1" (min_len 1 (Message "Address line 1 is required") (address1 r));
    at_key "address2" (min_len 1 (Message "Address line 2 is required") (address2 r));
    at_key "postcode" (min_len 1 (Message "Postcode is required") (postcode r)
                       ++ max_len 8 (Message "Postcode must be 8 characters or less") (postcode r));
    at_key "country" (min_len 1 (Message "Country is required") (country r));
    at_key "yearsAtAddress" (number [Min 0 TooSmall] (yearsAtAddress r));
    at_key "monthsAtAddress" (number [Min 0 TooSmall; Max 11 TooBig] (monthsAtAddress r));
    List.concat (mapi_from 0 (fun i a => at_path [Key "previousAddresses"; Idx i]
                                      (validatePreviousAddress a))
              (previousAddresses r));
    match communicationAddress r with
    | None => []
    | Some a => at_path [Key "communicationAddress"] (validateCommunicationAddress a)
    end;
    at_key "taxContributingCountry"
      (min_len 1 (Message "At least one tax contributing country is required")
         (taxContributingCountry r))].

End IndividualSchema.
Import IndividualSchema.

(** ** [corporateFormSchema] *)
Module CorporateSchema.
Import Corporate.

(** [z.literal(value)] *)
Definition literal (value s : jsstr) : list issue :=
  if list_eq_dec Z.eq_dec s value then [] else [InvalidLiteral].

(** The [contributorManagement] element schema. *)
Definition validateManagementPerson (m : ManagementPerson.t) : list error :=
  List.concat [
    at_key "firstName" (min_len 1 (Message "First name is required") (ManagementPerson.firstName m));
    at_key "surname" (min_len 1 (Message "Surname is required") (ManagementPerson.surname m));
    at_key "position" (min_len 1 (Message "Position is required") (ManagementPerson.position m))].

Definition req (k : string) (m : string) (s : jsstr) : list error :=
  at_key k (min_len 1 (Message m) s).

(** [corporateFormSchema.safeParse]: the list of issues, empty when the
    record is accepted.  [zod_email] is zod's e-mail pattern. *)
Definition validateCorporate (zod_email : jsstr -> bool) (r : Corporate.t) : list error :=
  List.concat [
    req "pstrId" "PSTR ID is required" (pstrId r);
    req "pensionSchemeName" "Pension scheme name is required" (pensionSchemeName r);
    req "contactName" "Contact name is required" (contactName r);
    req "positionInOrganization" "Position is required" (positionInOrganization r);
    req "pensionProvider" "Pension provider is required" (pensionProvider r);
    at_key "telephone" (check (digits_exactly 14 (telephone r))
      (Message "Phone number must be 14 digits including country code"));
    at_key "mobile" (check (digits_exactly 14 (mobile r)) (Message "Mobile number must be 14 digits"));
    at_key "email" (check (zod_email (email r)) InvalidEmail
                    ++ max_len 65 (Message "Email must be less than 65 characters") (email r));
    req "addressType" "Address type is required" (addressType r);
    req "address1" "Building number is required" (address1 r);
    req "address2" "Street name is required" (address2 r);
    req "postcode" "Postcode is required" (postcode r);
    req "country" "Country is required" (country r);
    at_key "howManyToSign"
      (number [Min 1 (Message "Number of signatories is required")] (howManyToSign r));
    at_key "howManyFromCorporateTrustee" (number [Min 0 TooSmall] (howManyFromCorporateTrustee r));
    at_key "howManyMembers"
      (number [Min 1 (Message "Number of members is required")] (howManyMembers r));
    req "dateOfRegistration" "Date of registration is required" (dateOfRegistration r);
    at_key "depositPerAnnum"
      (number [Min 0 (Message "Deposit per annum is required")] (depositPerAnnum r));
    at_key "annualOutgoings"
      (number [Min 0 (Message "Annual outgoings is required")] (annualOutgoings r));
    at_key "anticipatedActivity"
      (number [Min 0 (Message "Anticipated activity is required")] (anticipatedActivity r));
    at_key "anticipatedTransactions"
      (number [Min 0 (Message "Anticipated transactions is required")] (anticipatedTransactions r));
    at_key "countryOfPayments"
      (min_len 1 (Message "At least one country is required") (countryOfPayments r));
    at_key "schemeRegistrationCountry"
      (literal (js "United Kingdom") (schemeRegistrationCountry r));
    req "contributorLegalName" "Legal name is required" (contributorLegalName r);
    req "contributorAddress1" "Address line 1 is required" (contributorAddress1 r);
    at_key "contributorPostcode"
      (max_len 8 (Message "Postcode must be 8 characters or less") (contributorPostcode r));
    req "contributorCountry" "Country is required" (contributorCountry r);
    req "contributorDateOfIncorporation" "Date of incorporation is required"
      (contributorDateOfIncorporation r);
    req "contributorDateOfRegistration" "Date of registration is required"
      (contributorDateOfRegistration r);
    req "contributorDateStartedTrading" "Date started trading is required"
      (contributorDateStartedTrading r);
    req "contributorNatureOfBusiness" "Nature of business is required"
      (contributorNatureOfBusiness r);
    at_key "contributorCountriesOperatesIn"
      (min_len 1 (Message "At least one country is required") (contributorCountriesOperatesIn r));
    at_key "contributorManagement"
      (min_len 1 (Message "At least one management person is required") (contributorManagement r));
    List.concat (mapi_from 0 (fun i m => at_path [Key "contributorManagement"; Idx i]
                                           (validateManagementPerson m))
                   (contributorManagement r));
    req "professionalCoSignatory" "Professional co-signatory is required" (professionalCoSignatory r);
    req "coSignCompanyName" "Company name is required" (coSignCompanyName r);
    req "coSignAddress" "Address is required" (coSignAddress r);
    req "coSignTelephone" "Telephone is required" (coSignTelephone r);
    at_key "coSignEmail" (check (zod_email (coSignEmail r)) (Message "Valid email is required"));
    req "regulatorReferenceNumber" "Regulator reference number is required"
      (regulatorReferenceNumber r);
    at_key "tcAcknowledgement"
      (check (tcAcknowledgement r) (Message "You must acknowledge the terms and conditions"));
    at_key "accountType"
      (min_len 1 (Message "At least one account type is required") (accountType r));
    req "openingBalance" "Opening balance is required" (openingBalance r);
    req "sourceOfInitialFunds" "Source of initial funds is required" (sourceOfInitialFunds r);
    at_key "sourceOfFunds"
      (min_len 1 (Message "At least one source of funds is required") (sourceOfFunds r));
    req "valueOfFunds" "Value of funds is required" (valueOfFunds r);
    at_key "countryOfFunds"
      (min_len 1 (Message "At least one country is required") (countryOfFunds r))].

End CorporateSchema.
Import CorporateSchema.

(** ** JavaScript arithmetic on numbers (exact on finite values) *)
Module JSArith.

Definition num_add (a b : jsnum) : jsnum :=
  match a, b with
  | NaN, _ | _, NaN => NaN
  | PosInf, NegInf | NegInf, PosInf => NaN
  | PosInf, _ | _, PosInf => PosInf
  | NegInf, _ | _, NegInf => NegInf
  | Fin x, Fin y => Fin (x + y)
  end.

Definition inf_of_sign (positive : bool) : jsnum := if positive then PosInf else NegInf.

Definition num_mul (a b : jsnum) : jsnum :=
  match a, b with
  | NaN, _ | _, NaN => NaN
  | Fin x, Fin y => Fin (x * y)
  | Fin x, PosInf | PosInf, Fin x =>
      if Qeq_bool x 0 then NaN else inf_of_sign (Qltb 0 x)
  | Fin x, NegInf | NegInf, Fin x =>
      if Qeq_bool x 0 then NaN else inf_of_sign (Qltb x 0)
  | PosInf, PosInf | NegInf, NegInf => PosInf
  | PosInf, NegInf | NegInf, PosInf => NegInf
  end.

(** [a < b] *)
Definition num_lt (a b : jsnum) : bool :=
  match a, b with
  | NaN, _ | _, NaN => false
  | Fin x, Fin y => Qltb x y
  | NegInf, NegInf | PosInf, _ => false
  | NegInf, _ | _, PosInf => true
  | _, NegInf => false
  end.

(** [a >= b] *)
Definition num_ge (a b : jsnum) : bool :=
  match a, b with
  | NaN, _ | _, NaN => false
  | _, _ => negb (num_lt a b)
  end.

End JSArith.
Import JSArith.

(** ** The controller of [IndividualForm] *)
Module IndividualController.
Import Individual.

(** The form values and the three [useState] flags. *)
Record ui : Type := {
  values : Individual.t;
  showPreviousAddresses : bool;
  showCommunicationAddress : bool;
  showSecondNationality : bool
}.

Definition with_values (v : Individual.t) (st : ui) : ui :=
  {| values := v; showPreviousAddresses := showPreviousAddresses st;
     showCommunicationAddress := showCommunicationAddress st;
     showSecondNationality := showSecondNationality st |}.

Definition defaultValues : Individual.t :=
  {| pstrId := []; employeeId := Fin 0; title := []; firstName := [];
     middleName := Some []; surname := []; isSigner := false;
     isTrusteeOfScheme := false; dateOfBirth := []; gender := [];
     primaryNationality := []; countryOfBirth := []; hasDualNationality := false;
     secondNationality := Some []; telephone := []; mobile := []; email := [];
     typeOfEmployment := []; occupation := []; marketingPreferences := [];
     address1 := []; address2 := []; address3 := Some []; address4 := Some [];
     postcode := []; country := []; isCurrentAddress := true;
     isPermanentAddress := true; isCommunicationAddress := true;
     yearsAtAddress := Fin 0; monthsAtAddress := Fin 0; previousAddresses := [];
     communicationAddress := None; taxContributingCountry := [];
     foreignTinId := Some [] |}.

Definition initial : ui :=
  {| values := defaultValues; showPreviousAddresses := false;
     showCommunicationAddress := false; showSecondNationality := false |}.

Definition emptyPreviousAddress : PreviousAddress.t :=
  {| PreviousAddress.address1 := []; PreviousAddress.address2 := [];
     PreviousAddress.address3 := Some []; PreviousAddress.address4 := Some [];
     PreviousAddress.postcode := []; PreviousAddress.country := [];
     PreviousAddress.yearsAtAddress := Fin 0; PreviousAddress.monthsAtAddress := Fin 0 |}.

Definition emptyCommunicationAddress : CommunicationAddress.t :=
  {| CommunicationAddress.address1 := []; CommunicationAddress.address2 := [];
     CommunicationAddress.address3 := Some []; CommunicationAddress.address4 := Some [];
     CommunicationAddress.postcode := []; CommunicationAddress.country := [] |}.

Definition totalMonths (v : Individual.t) : jsnum :=
  num_add (num_mul (yearsAtAddress v) (Fin 12)) (monthsAtAddress v).

Definition handleAddressTimeChange (st : ui) : ui :=
  let total := totalMonths (values st) in
  if num_lt total (Fin 36) && negb (showPreviousAddresses st) then
    {| values := set_previousAddresses [emptyPreviousAddress] (values st);
       showPreviousAddresses := true;
       showCommunicationAddress := showCommunicationAddress st;
       showSecondNationality := showSecondNationality st |}
  else if num_ge total (Fin 36) && showPreviousAddresses st then
    {| values := set_previousAddresses [] (values st);
       showPreviousAddresses := false;
       showCommunicationAddress := showCommunicationAddress st;
       showSecondNationality := showSecondNationality st |}
  else st.

Definition handleCommunicationAddressChange (checked : bool) (st : ui) : ui :=
  let v := values st in
  {| values := set_communicationAddress
                 (if checked then None else Some emptyCommunicationAddress) v;
     showPreviousAddresses := showPreviousAddresses st;
     showCommunicationAddress := negb checked;
     showSecondNationality := showSecondNationality st |}.

Definition handleDualNationalityChange (checked : bool) (st : ui) : ui :=
  let v := values st in
  {| values := if checked then v else set_secondNationality (Some []) v;
     showPreviousAddresses := showPreviousAddresses st;
     showCommunicationAddress := showCommunicationAddress st;
     showSecondNationality := checked |}.

Definition addPreviousAddress (st : ui) : ui :=
  let currentAddresses := previousAddresses (values st) in
  if (List.length currentAddresses <? 3)%nat then
    with_values (set_previousAddresses (currentAddresses ++ [emptyPreviousAddress])
                   (values st)) st
  else st.

Fixpoint update_nth {A} (i : nat) (f : A -> A) (l : list A) : list A :=
  match l, i with
  | [], _ => []
  | x :: l', O => f x :: l'
  | x :: l', S i' => x :: update_nth i' f l'
  end.

(** The user events the form handles. *)
Inductive event : Type :=
| ChangeYearsAtAddress (v : jsnum)   (** [field.onChange(parseInt(..)); handleAddressTimeChange()] *)
| ChangeMonthsAtAddress (v : jsnum)
| ClickAddPreviousAddress
| EditPreviousAddress (i : nat) (f : PreviousAddress.t -> PreviousAddress.t)
    (** an input of [previousAddresses.${index}] *)
| CheckCommunicationAddress (checked : bool)
| CheckDualNationality (checked : bool)
| EditOtherField (f : Individual.t -> Individual.t)
    (** any other input: it writes none of the fields that the events
        above own *).

(** The fields owned by the dedicated events are kept from [old]. *)
Definition keep_owned (old new : Individual.t) : Individual.t :=
  set_previousAddresses (previousAddresses old)
    (set_yearsAtAddress (yearsAtAddress old)
      (set_monthsAtAddress (monthsAtAddress old)
        (set_hasDualNationality (hasDualNationality old)
          (set_isCommunicationAddress (isCommunicationAddress old)
            (set_communicationAddress (communicationAddress old) new))))).

Definition apply (st : ui) (e : event) : ui :=
  match e with
  | ChangeYearsAtAddress v =>
      handleAddressTimeChange (with_values (set_yearsAtAddress v (values st)) st)
  | ChangeMonthsAtAddress v =>
      handleAddressTimeChange (with_values (set_monthsAtAddress v (values st)) st)
  | ClickAddPreviousAddress => addPreviousAddress st
  | EditPreviousAddress i f =>
      with_values (set_previousAddresses
                     (update_nth i f (previousAddresses (values st))) (values st)) st
  | CheckCommunicationAddress checked =>
      handleCommunicationAddressChange checked
        (with_values (set_isCommunicationAddress checked (values st)) st)
  | CheckDualNationality checked =>
      handleDualNationalityChange checked
        (with_values (set_hasDualNationality checked (values st)) st)
  | EditOtherField f => with_values (keep_owned (values st) (f (values st))) st
  end.

Definition run (st : ui) (es : list event) : ui := fold_left apply es st.

(** Can the user fire [e] in [st]?  The previous-address inputs are
    rendered only inside [{showPreviousAddresses && ..}], one group per
    entry of [previousAddresses], and the add button only while there are
    fewer than 3 entries; the other inputs are always rendered. *)
Definition enabled (st : ui) (e : event) : bool :=
  match e with
  | ClickAddPreviousAddress =>
      showPreviousAddresses st && (List.length (previousAddresses (values st)) <? 3)%nat
  | EditPreviousAddress i _ =>
      showPreviousAddresses st && (i <? List.length (previousAddresses (values st)))%nat
  | _ => true
  end.

(** Every event of [es] is fired while it is enabled. *)
Fixpoint all_enabled (st : ui) (es : list event) : bool :=
  match es with
  | [] => true
  | e :: es' => enabled st e && all_enabled (apply st e) es'
  end.

End IndividualController.
Import IndividualController.

(** ** The handlers of the array-valued fields *)
Module ArrayFields.

(** [a === b] on strings. *)
Definition str_eqb (a b : jsstr) : bool :=
  if list_eq_dec Z.eq_dec a b then true else false.

(** [arr.includes(x)] *)
Definition includes (x : jsstr) (arr : list jsstr) : bool := existsb (str_eqb x) arr.

(** [IndividualForm], [marketingPreferences]: the checkbox of [pref].  The
    field's value is always an array (its default is [[]]), so
    [field.value || []] is the value itself. *)
Definition toggleMarketingPreference (pref : jsstr) (checked : bool)
    (currentValue : list jsstr) : list jsstr :=
  if checked then currentValue ++ [pref]
  else filter (fun value => negb (str_eqb value pref)) currentValue.

(** [IndividualForm], [taxContributingCountry]: the select adds a country
    code that is not yet in the list. *)
Definition selectTaxContributingCountry (value : jsstr) (currentValue : list jsstr)
    : list jsstr :=
  if negb (includes value currentValue) then currentValue ++ [value] else currentValue.

(** Its Remove button: [field.value?.filter((c) => c !== country)]. *)
Definition removeTaxContributingCountry (country : jsstr) (fieldValue : list jsstr)
    : list jsstr :=
  filter (fun c => negb (str_eqb c country)) fieldValue.

(** [CorporateForm], the selects of [countryOfPayments],
    [contributorCountriesOperatesIn], [accountType], [sourceOfFunds] and
    [countryOfFunds]: [form.setValue(X, [...currentValue, value])]. *)
Definition appendSelection (value : jsstr) (currentValue : list jsstr) : list jsstr :=
  currentValue ++ [value].

(** Their [value={form.watch(X)[0]}]. *)
Definition displayedSelection (currentValue : list jsstr) : option jsstr :=
  hd_error currentValue.

(** One pick in one of those selects.  The Radix [Select] is controlled by
    [value={form.watch(X)[0]}], and its state setter calls [onValueChange]
    only when the picked value differs from [value]: a pick equal to the
    displayed first item changes nothing.  With an empty list [value] is
    [undefined], the select is uncontrolled and the first pick fires. *)
Definition pickSelection (value : jsstr) (currentValue : list jsstr) : list jsstr :=
  match displayedSelection currentValue with
  | Some shown =>
      if str_eqb value shown then currentValue else appendSelection value currentValue
  | None => appendSelection value currentValue
  end.

(** A sequence of picks in one of those selects. *)
Definition pickAll (currentValue : list jsstr) (picks : list jsstr) : list jsstr :=
  fold_left (fun cur value => pickSelection value cur) picks currentValue.

End ArrayFields.
Import ArrayFields.

(** ** [reference-data.ts] *)
Module ReferenceData.

Record ReferenceItem : Type := {
  value : jsstr;
  label : jsstr
}.

Definition item (v l : string) : ReferenceItem := {| value := js v; label := js l |}.

Definition countries : list ReferenceItem :=
  [item "GB" "United Kingdom"; item "US" "United States"; item "CA" "Canada";
   item "FR" "France"; item "DE" "Germany"].

Definition addressTypes : list ReferenceItem :=
  [item "residential" "Residential"; item "business" "Business"; item "postal" "Postal"].

Definition titles : list ReferenceItem :=
  [item "mr" "Mr."; item "mrs" "Mrs."; item "miss" "Miss"; item "dr" "Dr."].

Definition genderOptions : list ReferenceItem :=
  [item "male" "Male"; item "female" "Female"; item "other" "Other";
   item "prefer_not_to_say" "Prefer not to say"].

Definition employmentTypes : list ReferenceItem :=
  [item "full_time" "Full Time"; item "part_time" "Part Time"; item "contract" "Contract";
   item "temporary" "Temporary"; item "self_employed" "Self Employed"].

Definition marketingPreferences : list ReferenceItem :=
  [item "email" "Email"; item "post" "Post"; item "sms" "SMS"; item "phone" "Phone";
   item "none" "No Marketing"].

Definition nationalities : list ReferenceItem :=
  [item "british" "British"; item "american" "American"; item "canadian" "Canadian";
   item "french" "French"; item "german" "German"; item "indian" "Indian";
   item "australian" "Australian"; item "new_zealand" "New Zealand";
   item "south_african" "South African"; item "other" "Other"].

(** [IndividualForm], the selected tax countries:
    [countries.find(c => c.value === country)?.label]. *)
Definition countryLabel (country : jsstr) : option jsstr :=
  option_map label (find (fun c => str_eqb (value c) country) countries).

End ReferenceData.

(** C10 reference, from the claim's words: [dd-MM-yyyy] with [dd] in 01-31,
    [MM] in 01-12 and [yyyy] any four digits. *)
Definition dd_MM_yyyy (s : jsstr) : Prop :=
  exists d1 d2 m1 m2 y1 y2 y3 y4,
    s = [d1; d2; 45; m1; m2; 45; y1; y2; y3; y4]%Z /\
    Forall (fun c => (48 <= c <= 57)%Z) [d1; d2; m1; m2; y1; y2; y3; y4] /\
    (1 <= 10 * (d1 - 48) + (d2 - 48) <= 31)%Z /\
    (1 <= 10 * (m1 - 48) + (m2 - 48) <= 12)%Z.

(** C3 reference, from the claim's words: [x] rounded to two decimal
    places, halves away from zero. *)
Definition rounded_2dp (x : Q) : Q :=
  if Qle_bool 0 x then Qfloor (x * 100 + (1 # 2)) # 100
  else (- Qfloor (- x * 100 + (1 # 2))) # 100.

(** ** Proofs *)

(** *** [formatPhoneNumber] *)

Lemma strip_all_digits (s : jsstr) : forallb is_digit (strip_non_digits s) = true.
Proof.
  induction s as [|c s IH]; simpl; [reflexivity|].
  destruct (is_digit c) eqn:E; simpl; [rewrite E, IH|]; auto.
Qed.

Lemma replace_phone_short (c : jsstr) :
  (List.length c < 12)%nat -> replace_phone c = c.
Proof.
  induction c as [|x c IH]; intro Hlen; simpl; [reflexivity|].
  unfold phone_match_at.
  replace ((12 <=? List.length (x :: c))%nat) with false
    by (symmetry; apply Nat.leb_gt; exact Hlen).
  simpl. f_equal. apply IH. simpl in Hlen. lia.
Qed.

Lemma forallb_firstn {A} (p : A -> bool) n (l : list A) :
  forallb p l = true -> forallb p (firstn n l) = true.
Proof.
  revert l; induction n as [|n IH]; intros [|x l] H; simpl in *; auto.
  apply andb_true_iff in H as [H1 H2]. rewrite H1, IH; auto.
Qed.

Lemma replace_phone_long (c : jsstr) :
  forallb is_digit c = true -> (12 <= List.length c)%nat ->
  replace_phone c =
    [43%Z] ++ slice 0 2 c ++ [32%Z] ++ slice 2 6 c ++ [32%Z] ++ slice 6 12 c
      ++ skipn 12 c.
Proof.
  intros Hd Hlen. destruct c as [|x c]; [simpl in Hlen; lia|].
  unfold replace_phone; fold replace_phone.
  unfold phone_match_at.
  rewrite (proj2 (Nat.leb_le _ _) Hlen), (forallb_firstn _ 12 _ Hd).
  reflexivity.
Qed.


(** *** Digits and [parseFloat] *)

Open Scope Z_scope.

Lemma digit_cases (d : Z) : is_digit d = true ->
  d = 48 \/ d = 49 \/ d = 50 \/ d = 51 \/ d = 52 \/
  d = 53 \/ d = 54 \/ d = 55 \/ d = 56 \/ d = 57.
Proof.
  unfold is_digit. rewrite andb_true_iff, !Z.leb_le. lia.
Qed.

Ltac digit_case H :=
  destruct (digit_cases _ H) as [->|[->|[->|[->|[->|[->|[->|[->|[->| ->]]]]]]]]].

Lemma dval_from_app (a : Z) (l1 l2 : jsstr) :
  dval_from a (l1 ++ l2) = dval_from (dval_from a l1) l2.
Proof. unfold dval_from. apply fold_left_app. Qed.

Lemma digits_fuel_ok (f : nat) (n : Z) :
  f <> O -> (0 <= n < 10 ^ Z.of_nat f)%Z ->
  digits_fuel f n <> [] /\ forallb is_digit (digits_fuel f n) = true /\
  dval (digits_fuel f n) = n.
Proof.
  revert n; induction f as [|f IH]; intros n Hf Hn; [contradiction|].
  cbn [digits_fuel]. destruct (n <? 10)%Z eqn:Hlt.
  - apply Z.ltb_lt in Hlt. unfold dval, dval_from, is_digit; cbn [fold_left forallb].
    split; [discriminate|split].
    + rewrite andb_true_r, andb_true_iff, !Z.leb_le. lia.
    + lia.
  - apply Z.ltb_ge in Hlt.
    assert (Hf' : f <> O).
    { intro E; subst f. simpl in Hn. lia. }
    assert (Hq : (0 <= n / 10 < 10 ^ Z.of_nat f)%Z).
    { rewrite Nat2Z.inj_succ, Z.pow_succ_r in Hn by lia.
      split; [apply Z.div_pos; lia | apply Z.div_lt_upper_bound; lia]. }
    destruct (IH (n / 10)%Z Hf' Hq) as (_ & Hd & Hv).
    repeat split.
    + intro E. apply app_eq_nil in E as [_ E]. discriminate.
    + rewrite forallb_app, Hd. cbn [forallb andb]. unfold is_digit.
      pose proof (Z.mod_pos_bound n 10).
      assert (H48 : (48 <=? 48 + n mod 10)%Z = true) by (apply Z.leb_le; lia).
      assert (H57 : (48 + n mod 10 <=? 57)%Z = true) by (apply Z.leb_le; lia).
      rewrite H48, H57. reflexivity.
    + unfold dval in *. rewrite dval_from_app, Hv. unfold dval_from; cbn [fold_left].
      pose proof (Z_div_mod_eq_full n 10). lia.
Qed.

Lemma digits_of_ok (n : Z) : (0 <= n)%Z ->
  digits_of n <> [] /\ forallb is_digit (digits_of n) = true /\
  dval (digits_of n) = n.
Proof.
  intro Hn. unfold digits_of. apply digits_fuel_ok; [discriminate|].
  split; [exact Hn|].
  pose proof (Z.log2_nonneg n) as Hl.
  rewrite Nat2Z.inj_succ, Z2Nat.id by exact Hl.
  destruct (Z.eq_dec n 0) as [->|Hnz]; [reflexivity|].
  destruct (Z.log2_spec n) as [_ Hup]; [lia|].
  eapply Z.lt_le_trans; [exact Hup|].
  apply Z.pow_le_mono_l. lia.
Qed.

Lemma filter_group_rev (p : Z -> bool) (l : jsstr) :
  p 44%Z = false -> filter p (group_rev l) = filter p l.
Proof.
  intro H44.
  assert (Hgen : forall n l, (List.length l <= n)%nat ->
            filter p (group_rev l) = filter p l).
  { induction n as [|n IH]; intros [|a [|b [|c [|d r]]]] Hlen; try reflexivity.
    - simpl in Hlen. lia.
    - change (group_rev (a :: b :: c :: d :: r))
        with (a :: b :: c :: 44 :: group_rev (d :: r)).
      cbn [filter]. rewrite H44.
      rewrite (IH (d :: r)) by (simpl in *; lia). reflexivity. }
  apply (Hgen (List.length l)). lia.
Qed.

Lemma filter_all {A} (p : A -> bool) (l : list A) :
  forallb p l = true -> filter p l = l.
Proof.
  induction l as [|x l IH]; simpl; [reflexivity|].
  rewrite andb_true_iff. intros [-> Hl]. rewrite IH; auto.
Qed.

Lemma forallb_digits_currency (l : jsstr) :
  forallb is_digit l = true -> forallb currency_char l = true.
Proof.
  induction l as [|x l IH]; simpl; [reflexivity|].
  rewrite !andb_true_iff. intros [Hx Hl]. unfold currency_char.
  rewrite Hx. auto.
Qed.

Lemma take_digits_app (D r : jsstr) :
  forallb is_digit D = true ->
  (r = [] \/ exists c r', r = c :: r' /\ is_digit c = false) ->
  take_digits (D ++ r) = (D, r).
Proof.
  intros HD Hr. induction D as [|x D IH]; simpl.
  - destruct Hr as [->|(c & r' & -> & Hc)]; simpl; [reflexivity|].
    rewrite Hc. reflexivity.
  - simpl in HD. apply andb_true_iff in HD as [Hx HD].
    rewrite Hx, IH by exact HD. reflexivity.
Qed.

Lemma digit_not_ws (d : Z) : is_digit d = true -> is_ws d = false.
Proof. intro H. digit_case H; reflexivity. Qed.

Lemma parseFloat_fixed2 (neg : bool) (D : jsstr) (a b : Z) :
  D <> [] -> forallb is_digit D = true -> is_digit a = true -> is_digit b = true ->
  parseFloat ((if neg then [45%Z] else []) ++ D ++ [46; a; b]%Z) =
  to_double (let q := (inject_Z (dval (D ++ [a; b])) * Qpower (10 # 1) (-2))%Q in
       if neg then (- q)%Q else q).
Proof.
  intros HD HDd Ha Hb. destruct D as [|d D']; [contradiction|].
  pose proof HDd as Hd. simpl in Hd. apply andb_true_iff in Hd as [Hd _].
  assert (Hpre : forall r, is_prefix (js "Infinity") (d :: r) = false)
    by (intro r; digit_case Hd; reflexivity).
  assert (Hun : parse_unsigned ((d :: D') ++ [46; a; b]%Z) =
                Some (inject_Z (dval ((d :: D') ++ [a; b])) * Qpower (10 # 1) (-2))%Q).
  { unfold parse_unsigned.
    rewrite take_digits_app
      by (auto; right; exists 46%Z, [a; b]; split; reflexivity).
    pose proof (take_digits_app [a; b] []) as E.
    rewrite app_nil_r in E. cbv beta iota. rewrite E by (first [left; reflexivity | cbn [forallb]; rewrite Ha, Hb; reflexivity]).
    reflexivity. }
  unfold parseFloat. destruct neg.
  - cbn [app skip_ws is_ws existsb Z.eqb orb take_sign].
    simpl (skip_ws _). simpl (take_sign _). cbv beta iota.
    rewrite Hpre. rewrite <- app_comm_cons in Hun. rewrite Hun. reflexivity.
  - cbn [app]. simpl skip_ws. rewrite (digit_not_ws d Hd).
    assert (Hs : forall r, take_sign (d :: r) = (false, d :: r))
      by (intro r; digit_case Hd; reflexivity).
    rewrite Hs. cbv beta iota. rewrite Hpre. rewrite <- app_comm_cons in Hun. rewrite Hun. reflexivity.
Qed.


(** C1 (as stated): every input whose digit-stripped form is not exactly 12
    digits long is returned digit-stripped and otherwise unchanged.  False:
    a 14-digit input has its first 12 digits regrouped. *)
Lemma C1_counterexample :
  formatPhoneNumber (js "44123456789012")
    <> strip_non_digits (js "44123456789012").
Proof. vm_compute. discriminate. Qed.

(** C1 (amended): with [c] the digit-stripped input, [formatPhoneNumber]
    returns [c] unchanged when [c] has fewer than 12 digits; when it has 12
    or more, the first 12 digits are regrouped as "+DD DDDD DDDDDD" and any
    further digits follow unchanged. *)
Theorem formatPhoneNumber_spec (s : jsstr) :
  let c := strip_non_digits s in
  ((List.length c < 12)%nat -> formatPhoneNumber s = c) /\
  ((12 <= List.length c)%nat ->
     formatPhoneNumber s =
       [43%Z] ++ slice 0 2 c ++ [32%Z] ++ slice 2 6 c ++ [32%Z] ++ slice 6 12 c
         ++ skipn 12 c).
Proof.
  intro c. split; intro H; unfold formatPhoneNumber.
  - apply replace_phone_short. exact H.
  - apply replace_phone_long; [apply strip_all_digits | exact H].
Qed.

Lemma formatPhoneNumber_spec_witness :
  formatPhoneNumber (js "+44 (0)1234-567890") = js "+44 0123 4567890" /\
  formatPhoneNumber (js "0123") = js "0123".
Proof.
  split.
  - rewrite (proj2 (formatPhoneNumber_spec (js "+44 (0)1234-567890")));
      [reflexivity | vm_compute; lia].
  - rewrite (proj1 (formatPhoneNumber_spec (js "0123")));
      [reflexivity | vm_compute; lia].
Defined.


(** *** [formatCurrency] and [parseCurrency] *)

Example formatCurrency_grouping :
  formatCurrency (AStr (js "-1234567.891")) = [45; pound] ++ js "1,234,567.89".
Proof. vm_compute. reflexivity. Qed.

Example parseCurrency_formatted :
  parseCurrency (formatCurrency (AStr (js "-1234.5678"))) = to_double (-(123457 # 100))%Q.
Proof. vm_compute. reflexivity. Qed.

Lemma round_cents_nonneg (x : Q) : 0 <= round_cents x.
Proof.
  unfold round_cents. change 0 with (Qfloor 0).
  apply Qfloor_resp_le.
  apply (Qle_trans _ (0 + 0)); [discriminate|].
  apply Qplus_le_compat; [|discriminate].
  apply (Qmult_le_0_compat _ 100); [apply Qabs_nonneg | discriminate].
Qed.

Lemma filter_currency_format (x : Q) :
  let c := round_cents (shortest x) in
  filter currency_char (format_gbp (Fin x)) =
  (if Qltb x 0 then [45] else []) ++ digits_of (c / 100)
    ++ [46; 48 + c mod 100 / 10; 48 + c mod 100 mod 10].
Proof.
  intro c. cbn [format_gbp]. fold c.
  pose proof (round_cents_nonneg (shortest x)) as Hc. fold c in Hc.
  destruct (digits_of_ok (c / 100)) as (_ & HD & _); [apply Z.div_pos; lia|].
  pose proof (Z.mod_pos_bound c 100) as Hm.
  rewrite !filter_app.
  replace (filter currency_char (if Qltb x 0 then [45] else []))
    with (if Qltb x 0 then [45] else []) by (destruct (Qltb x 0); reflexivity).
  unfold group3. rewrite filter_rev, filter_group_rev by reflexivity.
  rewrite <- filter_rev, rev_involutive, (filter_all _ (digits_of _))
    by (apply forallb_digits_currency; exact HD).
  change (filter currency_char [pound]) with (@nil Z).
  change (filter currency_char [46]) with [46].
  rewrite (filter_all _ (two_digits _)).
  - reflexivity.
  - unfold two_digits, currency_char, is_digit. cbn [forallb].
    assert (0 <= c mod 100 / 10 < 10)
      by (split; [apply Z.div_pos | apply Z.div_lt_upper_bound]; lia).
    pose proof (Z.mod_pos_bound (c mod 100) 10).
    replace (48 <=? 48 + c mod 100 / 10) with true by (symmetry; apply Z.leb_le; lia).
    replace (48 + c mod 100 / 10 <=? 57) with true by (symmetry; apply Z.leb_le; lia).
    replace (48 <=? 48 + c mod 100 mod 10) with true by (symmetry; apply Z.leb_le; lia).
    replace (48 + c mod 100 mod 10 <=? 57) with true by (symmetry; apply Z.leb_le; lia).
    reflexivity.
Qed.

Lemma to_double_Qeq (p q : Q) : (p == q)%Q -> to_double p = to_double q.
Proof. intro H. unfold to_double. rewrite (Qred_complete p q H). reflexivity. Qed.

Lemma shortest_at_nonneg (x : Q) (k : Z) (y : Q) :
  (0 <= x)%Q -> shortest_at x k = Some y -> (0 <= y)%Q.
Proof.
  intro Hx. unfold shortest_at. cbv beta zeta.
  set (s := Qpower 10 (qlog10 x - k + 1)).
  assert (Hs : (0 < s)%Q) by (apply Qpower_0_lt; reflexivity).
  assert (Hxs : (0 <= x / s)%Q)
    by (apply Qle_shift_div_l; [exact Hs | rewrite Qmult_0_l; exact Hx]).
  assert (Hlo : (0 <= inject_Z (Qfloor (x / s)) * s)%Q).
  { apply Qmult_le_0_compat; [|apply Qlt_le_weak, Hs].
    change 0%Q with (inject_Z 0). rewrite <- Zle_Qle.
    change 0%Z with (Qfloor 0). apply Qfloor_resp_le. exact Hxs. }
  assert (Hhi : (0 <= inject_Z (Qceiling (x / s)) * s)%Q).
  { apply Qmult_le_0_compat; [|apply Qlt_le_weak, Hs].
    apply (Qle_trans _ _ _ Hxs), Qle_ceiling. }
  repeat match goal with |- context [if ?b then _ else _] => destruct b end;
    intro H; try discriminate H; injection H as <-; assumption.
Qed.

Lemma shortest_from_nonneg (f : nat) (x : Q) (k : Z) :
  (0 <= x)%Q -> (0 <= shortest_from f x k)%Q.
Proof.
  intro Hx. revert k. induction f as [|f IH]; intro k; simpl; [exact Hx|].
  destruct (shortest_at x k) as [y|] eqn:E;
    [exact (shortest_at_nonneg x k y Hx E) | apply IH].
Qed.

(** The shortest decimal of a double has the double's sign. *)
Lemma shortest_sign (x : Q) :
  (Qltb x 0 = false -> 0 <= shortest x)%Q /\ (Qltb x 0 = true -> shortest x <= 0)%Q.
Proof.
  unfold shortest, Qltb.
  destruct (Qeq_bool x 0); [split; intros _; apply Qle_refl|].
  destruct (Qle_bool 0 x) eqn:E; cbn [negb]; split; intro H; try discriminate H.
  - apply shortest_from_nonneg. apply Qle_bool_iff. exact E.
  - assert (Hx : (0 <= - x)%Q).
    { apply Qopp_le_compat with (p := x) (q := 0%Q), Qlt_le_weak, Qnot_le_lt.
      intro H'. apply Qle_bool_iff in H'. rewrite H' in E. discriminate E. }
    exact (Qopp_le_compat _ _ (shortest_from_nonneg 17 (- x) 1 Hx)).
Qed.

(** C3 (as stated): every amount that parses to a finite number [x] comes
    back from [parseCurrency(formatCurrency(x))] as [x] rounded to two
    decimal places.  False: "1.0049999999999999" reads as the same double as
    1.005, whose shortest decimal 1.005 is formatted as "£1.01"; it comes back
    as 1.01, while [x] rounded to two places is 1.00 (and 1.01 is more than
    0.005 away from [x]). *)
Lemma C3_counterexample :
  parseFloat (js "1.0049999999999999")
    = Fin (1131529406376837 # 1125899906842624) /\
  formatCurrency (AStr (js "1.0049999999999999")) = pound :: js "1.01" /\
  parseCurrency (formatCurrency (AStr (js "1.0049999999999999")))
    = Fin (4548635623644201 # 4503599627370496) /\
  to_double (rounded_2dp (1131529406376837 # 1125899906842624)) = Fin 1 /\
  (1 # 200 < Qabs ((4548635623644201 # 4503599627370496)
                   - (1131529406376837 # 1125899906842624)))%Q.
Proof. vm_compute. repeat split; reflexivity. Qed.

(** C3 (amended): for every amount that parses to a finite number [x],
    [parseCurrency(formatCurrency(x))] is the double nearest to the
    shortest decimal of [x] (the digits [String(x)] prints) rounded to two
    decimal places, halves away from zero. *)
Theorem parseCurrency_formatCurrency (a : amount) (x : Q) :
  match a with AStr s => parseFloat s | ANum n => n end = Fin x ->
  parseCurrency (formatCurrency a) = to_double (rounded_2dp (shortest x)).
Proof.
  intro Ha.
  change (formatCurrency a)
    with (format_gbp (match a with AStr s => parseFloat s | ANum n => n end)).
  rewrite Ha. unfold parseCurrency. rewrite filter_currency_format.
  set (c := round_cents (shortest x)).
  pose proof (round_cents_nonneg (shortest x)) as Hc. fold c in Hc.
  destruct (digits_of_ok (c / 100)) as (HD0 & HD & HDv); [apply Z.div_pos; lia|].
  pose proof (Z.mod_pos_bound c 100) as Hm.
  pose proof (Z.mod_pos_bound (c mod 100) 10) as Hm'.
  assert (Hq : 0 <= c mod 100 / 10 < 10)
    by (split; [apply Z.div_pos | apply Z.div_lt_upper_bound]; lia).
  assert (Ha1 : is_digit (48 + c mod 100 / 10) = true)
    by (unfold is_digit; rewrite andb_true_iff, !Z.leb_le; lia).
  assert (Hb1 : is_digit (48 + c mod 100 mod 10) = true)
    by (unfold is_digit; rewrite andb_true_iff, !Z.leb_le; lia).
  rewrite (parseFloat_fixed2 (Qltb x 0) _ _ _ HD0 HD Ha1 Hb1).
  apply to_double_Qeq.
  assert (Hval : dval (digits_of (c / 100) ++ [48 + c mod 100 / 10; 48 + c mod 100 mod 10]) = c).
  { unfold dval. rewrite dval_from_app. fold (dval (digits_of (c / 100))).
    rewrite HDv. unfold dval_from; cbn [fold_left].
    pose proof (Z_div_mod_eq_full c 100). pose proof (Z_div_mod_eq_full (c mod 100) 10).
    lia. }
  rewrite Hval. destruct (shortest_sign x) as [Hpos Hneg].
  unfold rounded_2dp, c, round_cents.
  destruct (Qltb x 0) eqn:Hx; cbv zeta.
  - specialize (Hneg eq_refl). rewrite (Qabs_neg _ Hneg).
    destruct (Qle_bool 0 (shortest x)) eqn:Hs.
    + apply Qle_bool_iff in Hs.
      assert (E : (shortest x == 0)%Q) by (apply Qle_antisym; assumption).
      rewrite (Qfloor_comp (- shortest x * 100 + (1 # 2)) (1 # 2))
        by (rewrite E; reflexivity).
      rewrite (Qfloor_comp (shortest x * 100 + (1 # 2)) (1 # 2))
        by (rewrite E; reflexivity).
      reflexivity.
    + unfold Qeq; simpl. lia.
  - specialize (Hpos eq_refl).
    replace (Qle_bool 0 (shortest x)) with true
      by (symmetry; apply Qle_bool_iff; exact Hpos).
    rewrite (Qabs_pos _ Hpos). unfold Qeq; simpl. lia.
Qed.

Lemma parseCurrency_formatCurrency_witness :
  parseFloat (js "-1234.5678") = Fin (-5429686605511341 # 4398046511104) /\
  parseCurrency (formatCurrency (AStr (js "-1234.5678")))
    = to_double (rounded_2dp (shortest (-5429686605511341 # 4398046511104))) /\
  to_double (rounded_2dp (shortest (-5429686605511341 # 4398046511104)))
    = to_double (-(123457 # 100)).
Proof.
  split; [vm_compute; reflexivity|]. split.
  - apply parseCurrency_formatCurrency. vm_compute. reflexivity.
  - vm_compute. reflexivity.
Defined.

(** *** [validateDate] *)

Lemma is_digit_iff (c : Z) : is_digit c = true <-> 48 <= c <= 57.
Proof. unfold is_digit. rewrite andb_true_iff, !Z.leb_le. tauto. Qed.

Lemma day_ok_iff (c1 c2 : Z) :
  day_ok c1 c2 = true <->
  (48 <= c1 <= 57 /\ 48 <= c2 <= 57 /\ 1 <= 10 * (c1 - 48) + (c2 - 48) <= 31).
Proof.
  unfold day_ok. rewrite !orb_true_iff, !andb_true_iff, is_digit_iff,
    !orb_true_iff, !Z.eqb_eq, !Z.leb_le.
  split; intro H; lia.
Qed.

Lemma month_ok_iff (c1 c2 : Z) :
  month_ok c1 c2 = true <->
  (48 <= c1 <= 57 /\ 48 <= c2 <= 57 /\ 1 <= 10 * (c1 - 48) + (c2 - 48) <= 12).
Proof.
  unfold month_ok. rewrite !orb_true_iff, !andb_true_iff, !Z.eqb_eq, !Z.leb_le.
  split; intro H; lia.
Qed.

(** C10: [validateDate] accepts exactly the strings of the form dd-MM-yyyy
    with dd in 01-31, MM in 01-12 and four digits for the year, calendar
    validity aside; "31-02-2024" is accepted. *)
Theorem validateDate_iff (s : jsstr) :
  (validateDate s = true <-> dd_MM_yyyy s) /\
  validateDate (js "31-02-2024") = true.
Proof.
  split; [|reflexivity]. split.
  - intro H.
    destruct s as [|d1 [|d2 [|h1 [|m1 [|m2 [|h2 [|y1 [|y2 [|y3 [|y4 [|z r]]]]]]]]]]];
      try discriminate.
    cbn [validateDate forallb] in H.
    rewrite !andb_true_iff, day_ok_iff, month_ok_iff, !Z.eqb_eq, !is_digit_iff in H.
    destruct H as [[[[[Hd1 [Hd2 Hday]] ->] [Hm1 [Hm2 Hmon]]] ->] Hy].
    exists d1, d2, m1, m2, y1, y2, y3, y4.
    split; [reflexivity|].
    split; [repeat (apply Forall_cons; [lia|]); apply Forall_nil|].
    split; lia.
  - intros (d1 & d2 & m1 & m2 & y1 & y2 & y3 & y4 & -> & Hd & Hday & Hmon).
    repeat match goal with H : Forall _ (_ :: _) |- _ => inversion H; subst; clear H end.
    cbn [validateDate forallb].
    rewrite !andb_true_iff, day_ok_iff, month_ok_iff, !is_digit_iff.
    repeat split; lia.
Qed.

Lemma validateDate_iff_witness :
  validateDate (js "31-02-2024") = true /\ dd_MM_yyyy (js "31-02-2024").
Proof.
  split; [exact (proj2 (validateDate_iff (js "31-02-2024")))|].
  apply (proj1 (proj1 (validateDate_iff (js "31-02-2024")))). reflexivity.
Defined.

(** *** The helpers do not throw *)

Lemma take_digits_none (l : jsstr) :
  forallb (fun c => negb (is_digit c)) l = true -> take_digits l = ([], l).
Proof.
  destruct l as [|c l]; [reflexivity|]. cbn [forallb take_digits].
  rewrite andb_true_iff, negb_true_iff. intros [-> _]. reflexivity.
Qed.

Lemma currency_non_digit (c : Z) :
  currency_char c = true -> is_digit c = false -> c = 45 \/ c = 46.
Proof.
  unfold currency_char. rewrite !orb_true_iff, !Z.eqb_eq. intros [[H|H]|H] Hd;
    [rewrite H in Hd; discriminate | auto | auto].
Qed.

Lemma forallb_filter_currency (s : jsstr) :
  forallb (fun c => negb (is_digit c)) s = true ->
  forallb (fun c => negb (is_digit c) && currency_char c) (filter currency_char s) = true.
Proof.
  induction s as [|c s IH]; cbn [forallb filter]; [reflexivity|].
  rewrite andb_true_iff. intros [Hc Hs].
  destruct (currency_char c) eqn:E; cbn [forallb]; rewrite ?Hc, ?E, IH; auto.
Qed.

Lemma parseFloat_no_digit (f : jsstr) :
  forallb (fun c => negb (is_digit c) && currency_char c) f = true ->
  parseFloat f = NaN.
Proof.
  intro H.
  assert (Hnd : forall l, forallb (fun c => negb (is_digit c) && currency_char c) l = true ->
                 forallb (fun c => negb (is_digit c)) l = true).
  { induction l as [|c l IH]; cbn [forallb]; [reflexivity|].
    rewrite !andb_true_iff. intros [[Hc _] Hl]. auto. }
  assert (Hcase : forall c l, forallb (fun c => negb (is_digit c) && currency_char c) (c :: l) = true ->
                   (c = 45 \/ c = 46) /\
                   forallb (fun c => negb (is_digit c) && currency_char c) l = true).
  { intros c l Hl. cbn [forallb] in Hl. rewrite !andb_true_iff, negb_true_iff in Hl.
    destruct Hl as [[Hd Hc] Hl]. split; [apply currency_non_digit|]; auto. }
  (* after an optional sign, the rest is [], or starts with '-' or '.' *)
  assert (Hrest : forall l, forallb (fun c => negb (is_digit c) && currency_char c) l = true ->
            is_prefix (js "Infinity") l = false /\ parse_unsigned l = None).
  { intros [|c l] Hl; [split; reflexivity|].
    destruct (Hcase c l Hl) as [[-> | ->] Hl'].
    - split; [reflexivity|]. unfold parse_unsigned.
      rewrite (take_digits_none (45 :: l)) by (apply Hnd; exact Hl). reflexivity.
    - split; [reflexivity|]. unfold parse_unsigned.
      rewrite (take_digits_none (46 :: l)) by (apply Hnd; exact Hl).
      cbv beta iota. rewrite take_digits_none by (apply Hnd; exact Hl'). reflexivity. }
  destruct f as [|c f]; [reflexivity|].
  destruct (Hcase c f H) as [[-> | ->] Hf]; unfold parseFloat; cbn [skip_ws is_ws existsb Z.eqb orb];
    simpl (take_sign _); cbv beta iota.
  - destruct (Hrest f Hf) as [-> ->]. reflexivity.
  - destruct (Hrest (46 :: f) H) as [-> ->]. reflexivity.
Qed.

(** C9: the formatting utilities do not throw.  [formatDate] catches the
    RangeError of an Invalid Date and returns its input unchanged;
    [formatCurrency] renders a non-numeric amount as "£NaN"; [parseCurrency]
    of a string without digits is NaN. *)
Theorem helpers_never_throw (time : Type) (new_Date : jsstr -> option time)
  (render : time -> jsstr) (s : jsstr) :
  (exists r, formatDate time new_Date render s = Ok r /\
             (new_Date s = None -> r = s)) /\
  (parseFloat s = NaN -> formatCurrency (AStr s) = pound :: js "NaN") /\
  formatCurrency (ANum NaN) = pound :: js "NaN" /\
  (forallb (fun c => negb (is_digit c)) s = true -> parseCurrency s = NaN).
Proof.
  split; [|split; [|split]].
  - unfold formatDate, try_catch, format_ddMMyyyy.
    destruct (new_Date s) as [t|] eqn:E.
    + exists (render t). split; [reflexivity | discriminate].
    + exists s. split; reflexivity.
  - intro H. unfold formatCurrency. rewrite H. reflexivity.
  - reflexivity.
  - intro H. unfold parseCurrency. apply parseFloat_no_digit.
    apply forallb_filter_currency. exact H.
Qed.

Lemma helpers_never_throw_witness :
  formatDate unit (fun _ => None) (fun _ => []) (js "not a date") = Ok (js "not a date") /\
  formatCurrency (AStr (js "abc")) = pound :: js "NaN" /\
  parseCurrency (js "n/a - .") = NaN.
Proof.
  destruct (helpers_never_throw unit (fun _ => None) (fun _ => []) (js "not a date"))
    as [[r [Hr Hs]] _].
  split; [rewrite Hr, (Hs eq_refl); reflexivity|].
  split.
  - apply (proj1 (proj2 (helpers_never_throw unit (fun _ => None) (fun _ => []) (js "abc")))).
    reflexivity.
  - apply (proj2 (proj2 (proj2 (helpers_never_throw unit (fun _ => None) (fun _ => []) (js "n/a - .")))));
    reflexivity.
Defined.

(** *** The individual form controller *)

Lemma update_nth_length {A} (i : nat) (f : A -> A) (l : list A) :
  List.length (update_nth i f l) = List.length l.
Proof.
  revert i; induction l as [|x l IH]; intros [|i]; simpl; auto.
Qed.


Lemma apply_preserves_bound (st : ui) (e : event) :
  (List.length (Individual.previousAddresses (values st)) <= 3)%nat ->
  (List.length (Individual.previousAddresses (values (apply st e))) <= 3)%nat.
Proof.
  intro H.
  assert (Hh : forall st1, Individual.previousAddresses (values st1) =
                           Individual.previousAddresses (values st) ->
     (List.length (Individual.previousAddresses (values (handleAddressTimeChange st1))) <= 3)%nat).
  { intros st1 E. unfold handleAddressTimeChange.
    destruct (_ && _); [simpl; lia|].
    destruct (_ && _); [simpl; lia|]. rewrite E. exact H. }
  destruct e as [v|v| |i f|checked|checked|f]; cbn [apply].
  - apply Hh. reflexivity.
  - apply Hh. reflexivity.
  - unfold addPreviousAddress.
    destruct (Nat.ltb_spec (List.length (Individual.previousAddresses (values st))) 3)
      as [Hlt|Hge]; [|exact H].
    simpl. rewrite length_app. simpl. lia.
  - simpl. rewrite update_nth_length. exact H.
  - exact H.
  - destruct checked; exact H.
  - exact H.
Qed.

Lemma run_preserves_bound (es : list event) (st : ui) :
  (List.length (Individual.previousAddresses (values st)) <= 3)%nat ->
  (List.length (Individual.previousAddresses (values (run st es))) <= 3)%nat.
Proof.
  revert st; induction es as [|e es IH]; intros st H; [exact H|].
  apply IH. apply apply_preserves_bound. exact H.
Qed.



(** C4: adding a previous address is a no-op once three exist, and in every
    state reachable from the initial form [previousAddresses] has at most
    three elements. *)
Theorem previousAddresses_at_most_3 :
  (forall st, (3 <= List.length (Individual.previousAddresses (values st)))%nat ->
              addPreviousAddress st = st) /\
  (forall es, (List.length (Individual.previousAddresses (values (run initial es))) <= 3)%nat).
Proof.
  split.
  - intros st H. unfold addPreviousAddress.
    destruct (Nat.ltb_spec (List.length (Individual.previousAddresses (values st))) 3);
      [lia | reflexivity].
  - intro es. apply run_preserves_bound. simpl. lia.
Qed.

Lemma previousAddresses_at_most_3_witness :
  let st3 := run initial [ChangeYearsAtAddress (Fin 1); ClickAddPreviousAddress;
                          ClickAddPreviousAddress] in
  List.length (Individual.previousAddresses (values st3)) = 3%nat /\
  apply st3 ClickAddPreviousAddress = st3.
Proof.
  intro st3. split; [reflexivity|].
  apply (proj1 previousAddresses_at_most_3). simpl. lia.
Defined.



(** C7: checking "this is the communication address" clears the nested
    [communicationAddress] and hides its section; unchecking it allocates a
    record whose six fields are empty strings and shows the section. *)
Theorem communication_address_toggle (st : ui) :
  Individual.communicationAddress (values (apply st (CheckCommunicationAddress true))) = None /\
  showCommunicationAddress (apply st (CheckCommunicationAddress true)) = false /\
  Individual.communicationAddress (values (apply st (CheckCommunicationAddress false))) =
    Some {| CommunicationAddress.address1 := []; CommunicationAddress.address2 := [];
            CommunicationAddress.address3 := Some []; CommunicationAddress.address4 := Some [];
            CommunicationAddress.postcode := []; CommunicationAddress.country := [] |} /\
  showCommunicationAddress (apply st (CheckCommunicationAddress false)) = true.
Proof. repeat split. Qed.

(** *** The individual schema *)

(** C6: [secondNationality] and [hasDualNationality] take no part in the
    individual schema's checks, so a record whose other fields are valid is
    accepted with [hasDualNationality = false] and any [secondNationality],
    a non-empty one included. *)
Theorem secondNationality_unconstrained (zod_email : jsstr -> bool)
  (r : Individual.t) (s : jsstr) :
  (forall b o, validateIndividual zod_email
                 (Individual.set_hasDualNationality b (Individual.set_secondNationality o r))
               = validateIndividual zod_email r) /\
  (validateIndividual zod_email r = [] ->
   validateIndividual zod_email
     (Individual.set_hasDualNationality false (Individual.set_secondNationality (Some s) r)) = []).
Proof.
  assert (E : forall b o, validateIndividual zod_email
                 (Individual.set_hasDualNationality b (Individual.set_secondNationality o r))
               = validateIndividual zod_email r) by reflexivity.
  split; [exact E|]. intro H. rewrite E. exact H.
Qed.

Lemma secondNationality_unconstrained_witness :
  let r := {| Individual.pstrId := js "00123456RA"; Individual.employeeId := Fin 1;
              Individual.title := js "MR"; Individual.firstName := js "Ann";
              Individual.middleName := None; Individual.surname := js "Lee";
              Individual.isSigner := false; Individual.isTrusteeOfScheme := true;
              Individual.dateOfBirth := js "01-01-1980"; Individual.gender := js "F";
              Individual.primaryNationality := js "GB"; Individual.countryOfBirth := js "GB";
              Individual.hasDualNationality := true; Individual.secondNationality := None;
              Individual.telephone := js "44123456789012"; Individual.mobile := js "0712345678";
              Individual.email := js "ann@example.com"; Individual.typeOfEmployment := js "FT";
              Individual.occupation := js "Engineer"; Individual.marketingPreferences := [];
              Individual.address1 := js "1"; Individual.address2 := js "High Street";
              Individual.address3 := None; Individual.address4 := None;
              Individual.postcode := js "AB1 2CD"; Individual.country := js "GB";
              Individual.isCurrentAddress := true; Individual.isPermanentAddress := true;
              Individual.isCommunicationAddress := true;
              Individual.yearsAtAddress := Fin 5; Individual.monthsAtAddress := Fin 0;
              Individual.previousAddresses := []; Individual.communicationAddress := None;
              Individual.taxContributingCountry := [js "GB"];
              Individual.foreignTinId := None |} in
  validateIndividual (fun _ => true) r = [] /\
  validateIndividual (fun _ => true)
    (Individual.set_hasDualNationality false
       (Individual.set_secondNationality (Some (js "French")) r)) = [].
Proof.
  intro r. assert (H : validateIndividual (fun _ => true) r = []) by reflexivity.
  split; [exact H|].
  exact (proj2 (secondNationality_unconstrained (fun _ => true) r (js "French")) H).
Defined.

(** *** The corporate schema *)

(** C8: the corporate schema accepts a record only when
    [schemeRegistrationCountry] is exactly "United Kingdom"; any other
    value gives an invalid-literal issue on that field, so the submission
    is rejected. *)
Theorem schemeRegistrationCountry_literal (zod_email : jsstr -> bool) (r : Corporate.t) :
  (validateCorporate zod_email r = [] ->
   Corporate.schemeRegistrationCountry r = js "United Kingdom") /\
  (Corporate.schemeRegistrationCountry r <> js "United Kingdom" ->
   In ([Key "schemeRegistrationCountry"], InvalidLiteral) (validateCorporate zod_email r) /\
   validateCorporate zod_email r <> []).
Proof.
  assert (Hin : Corporate.schemeRegistrationCountry r <> js "United Kingdom" ->
     In ([Key "schemeRegistrationCountry"], InvalidLiteral) (validateCorporate zod_email r)).
  { intro Hne. unfold validateCorporate. apply in_concat.
    eexists. split.
    - do 22 right. left. reflexivity.
    - unfold literal.
      destruct (list_eq_dec Z.eq_dec (Corporate.schemeRegistrationCountry r)
                  (js "United Kingdom")) as [E|_]; [contradiction|].
      left. reflexivity. }
  split.
  - intro H. destruct (list_eq_dec Z.eq_dec (Corporate.schemeRegistrationCountry r)
                         (js "United Kingdom")) as [E|Hne]; [exact E|].
    specialize (Hin Hne). rewrite H in Hin. contradiction.
  - intro Hne. split; [apply Hin; exact Hne|].
    intro H. specialize (Hin Hne). rewrite H in Hin. contradiction.
Qed.

Lemma schemeRegistrationCountry_literal_witness :
  let r := {| Corporate.pstrId := js "00123456RA"; Corporate.pensionSchemeName := js "Acme SSAS";
              Corporate.contactName := js "Ann Lee"; Corporate.positionInOrganization := js "Director";
              Corporate.pensionProvider := js "Provider"; Corporate.telephone := js "44123456789012";
              Corporate.mobile := js "44712345678901"; Corporate.email := js "ann@example.com";
              Corporate.addressType := js "BUS"; Corporate.address1 := js "1";
              Corporate.address2 := js "High Street"; Corporate.address3 := None;
              Corporate.address4 := None; Corporate.postcode := js "AB1 2CD";
              Corporate.country := js "GB"; Corporate.isCurrentAddress := true;
              Corporate.isPermanentAddress := false; Corporate.isCommunicationAddress := false;
              Corporate.howManyToSign := Fin 1; Corporate.howManyFromCorporateTrustee := Fin 0;
              Corporate.howManyMembers := Fin 2; Corporate.isOccupationalScheme := false;
              Corporate.permitAssignmentOfInterest := false;
              Corporate.hasDeductionFromEmployeeWages := false;
              Corporate.dateOfRegistration := js "01-01-2020"; Corporate.hasCorporateTrustee := false;
              Corporate.depositPerAnnum := Fin 1000; Corporate.annualOutgoings := Fin 0;
              Corporate.anticipatedActivity := Fin 10; Corporate.anticipatedTransactions := Fin 5;
              Corporate.countryOfPayments := [js "GB"];
              Corporate.schemeRegistrationCountry := js "United Kingdom";
              Corporate.contributorLegalName := js "Acme Ltd"; Corporate.contributorTradingName := None;
              Corporate.contributorAddress1 := js "2 Low Road"; Corporate.contributorAddress2 := None;
              Corporate.contributorAddress3 := None; Corporate.contributorAddress4 := None;
              Corporate.contributorPostcode := js "AB1 2CD"; Corporate.contributorCountry := js "GB";
              Corporate.contributorDateOfIncorporation := js "01-01-2000";
              Corporate.contributorDateOfRegistration := js "01-01-2000";
              Corporate.contributorDateStartedTrading := js "01-02-2000";
              Corporate.contributorNatureOfBusiness := js "Retail";
              Corporate.contributorCountriesOperatesIn := [js "GB"];
              Corporate.contributorManagement :=
                [{| ManagementPerson.firstName := js "Ann"; ManagementPerson.middleName := None;
                    ManagementPerson.surname := js "Lee"; ManagementPerson.position := js "CEO" |}];
              Corporate.professionalCoSignatory := js "Co-Sign Ltd";
              Corporate.coSignCompanyName := js "Co-Sign Ltd"; Corporate.coSignAddress := js "3 Way";
              Corporate.coSignTelephone := js "0123"; Corporate.coSignEmail := js "cs@example.com";
              Corporate.regulatorReferenceNumber := js "R1"; Corporate.tcAcknowledgement := true;
              Corporate.accountType := [js "current"]; Corporate.openingBalance := js "1000";
              Corporate.sourceOfInitialFunds := js "savings"; Corporate.sourceOfFunds := [js "salary"];
              Corporate.otherSourceOfFunds := None; Corporate.valueOfFunds := js "1000";
              Corporate.countryOfFunds := [js "GB"] |} in
  validateCorporate (fun _ => true) r = [] /\
  Corporate.schemeRegistrationCountry r = js "United Kingdom" /\
  In ([Key "schemeRegistrationCountry"], InvalidLiteral)
     (validateCorporate (fun _ => true) (Corporate.set_schemeRegistrationCountry (js "France") r)).
Proof.
  intro r. assert (H : validateCorporate (fun _ => true) r = []) by reflexivity.
  split; [exact H|]. split.
  - exact (proj1 (schemeRegistrationCountry_literal (fun _ => true) r) H).
  - apply (proj2 (schemeRegistrationCountry_literal (fun _ => true)
                    (Corporate.set_schemeRegistrationCountry (js "France") r))).
    discriminate.
Defined.


(** ** Further properties of the code *)

(** *** The phone and mobile formatters *)

Lemma forallb_skipn {A} (p : A -> bool) n (l : list A) :
  forallb p l = true -> forallb p (skipn n l) = true.
Proof.
  revert l; induction n as [|n IH]; intros [|x l] H; simpl in *; auto.
  apply andb_true_iff in H as [_ H]. auto.
Qed.

Lemma forallb_slice (p : Z -> bool) i j (l : jsstr) :
  forallb p l = true -> forallb p (slice i j l) = true.
Proof. intro H. unfold slice. apply forallb_firstn, forallb_skipn, H. Qed.

Lemma phone_pieces (c : jsstr) :
  slice 0 2 c ++ slice 2 6 c ++ slice 6 12 c ++ skipn 12 c = c.
Proof. do 12 (destruct c as [|? c]; [reflexivity|]). reflexivity. Qed.

Lemma mobile_pieces (c : jsstr) :
  slice 0 4 c ++ slice 4 10 c ++ skipn 10 c = c.
Proof. do 10 (destruct c as [|? c]; [reflexivity|]). reflexivity. Qed.

Lemma replace_mobile_short (c : jsstr) :
  (List.length c < 10)%nat -> replace_mobile c = c.
Proof.
  induction c as [|x c IH]; intro Hlen; simpl; [reflexivity|].
  unfold mobile_match_at.
  replace ((10 <=? List.length (x :: c))%nat) with false
    by (symmetry; apply Nat.leb_gt; exact Hlen).
  simpl. f_equal. apply IH. simpl in Hlen. lia.
Qed.

Lemma replace_mobile_long (c : jsstr) :
  forallb is_digit c = true -> (10 <= List.length c)%nat ->
  replace_mobile c = slice 0 4 c ++ [32] ++ slice 4 10 c ++ skipn 10 c.
Proof.
  intros Hd Hlen. destruct c as [|x c]; [simpl in Hlen; lia|].
  unfold replace_mobile; fold replace_mobile.
  unfold mobile_match_at.
  rewrite (proj2 (Nat.leb_le _ _) Hlen), (forallb_firstn _ 10 _ Hd).
  reflexivity.
Qed.

Lemma strip_formatPhoneNumber (s : jsstr) :
  strip_non_digits (formatPhoneNumber s) = strip_non_digits s.
Proof.
  unfold formatPhoneNumber. cbv zeta.
  pose proof (strip_all_digits s) as Hd.
  destruct (Nat.lt_ge_cases (List.length (strip_non_digits s)) 12) as [Hl|Hl].
  - rewrite replace_phone_short by exact Hl.
    unfold strip_non_digits at 1. apply filter_all, Hd.
  - rewrite replace_phone_long by assumption.
    unfold strip_non_digits at 1. rewrite !filter_app.
    change (filter is_digit [43]) with (@nil Z).
    change (filter is_digit [32]) with (@nil Z).
    rewrite !(filter_all is_digit (slice _ _ _)) by (apply forallb_slice, Hd).
    rewrite (filter_all is_digit (skipn _ _)) by (apply forallb_skipn, Hd).
    apply phone_pieces.
Qed.

Lemma strip_formatMobileNumber (s : jsstr) :
  strip_non_digits (formatMobileNumber s) = strip_non_digits s.
Proof.
  unfold formatMobileNumber. cbv zeta.
  pose proof (strip_all_digits s) as Hd.
  destruct (Nat.lt_ge_cases (List.length (strip_non_digits s)) 10) as [Hl|Hl].
  - rewrite replace_mobile_short by exact Hl.
    unfold strip_non_digits at 1. apply filter_all, Hd.
  - rewrite replace_mobile_long by assumption.
    unfold strip_non_digits at 1. rewrite !filter_app.
    change (filter is_digit [32]) with (@nil Z).
    rewrite !(filter_all is_digit (slice _ _ _)) by (apply forallb_slice, Hd).
    rewrite (filter_all is_digit (skipn _ _)) by (apply forallb_skipn, Hd).
    apply mobile_pieces.
Qed.

(** X1: with [c] the digits of the input, [formatMobileNumber] returns [c]
    unchanged when it has fewer than 10 digits, and otherwise the first
    four digits, a space, the next six and the remaining digits. *)
Theorem formatMobileNumber_result (s : jsstr) :
  let c := strip_non_digits s in
  formatMobileNumber s =
    if (List.length c <? 10)%nat then c
    else slice 0 4 c ++ [32] ++ slice 4 10 c ++ skipn 10 c.
Proof.
  intro c. unfold formatMobileNumber. fold c.
  destruct (Nat.ltb_spec (List.length c) 10) as [Hl|Hl].
  - apply replace_mobile_short, Hl.
  - apply replace_mobile_long; [apply strip_all_digits | exact Hl].
Qed.

(** X2: formatting a phone or mobile number keeps its digits: removing the
    non-digits from the output gives the digits of the input. *)
Theorem phone_formatters_keep_digits (s : jsstr) :
  strip_non_digits (formatPhoneNumber s) = strip_non_digits s /\
  strip_non_digits (formatMobileNumber s) = strip_non_digits s.
Proof. split; [apply strip_formatPhoneNumber | apply strip_formatMobileNumber]. Qed.

(** X3: both formatters are idempotent: formatting an already formatted
    number (as the input's [onChange] does on every keystroke) changes
    nothing. *)
Theorem phone_formatters_idempotent (s : jsstr) :
  formatPhoneNumber (formatPhoneNumber s) = formatPhoneNumber s /\
  formatMobileNumber (formatMobileNumber s) = formatMobileNumber s.
Proof.
  split.
  - unfold formatPhoneNumber at 1. cbv zeta. rewrite strip_formatPhoneNumber. reflexivity.
  - unfold formatMobileNumber at 1. cbv zeta. rewrite strip_formatMobileNumber. reflexivity.
Qed.

Lemma formatPhoneNumber_not_14_digits (s : jsstr) :
  digits_exactly 14 (formatPhoneNumber s) = false.
Proof.
  unfold formatPhoneNumber, digits_exactly. cbv zeta.
  destruct (Nat.lt_ge_cases (List.length (strip_non_digits s)) 12) as [Hl|Hl].
  - rewrite replace_phone_short by exact Hl.
    replace (List.length (strip_non_digits s) =? 14)%nat with false
      by (symmetry; apply Nat.eqb_neq; lia).
    reflexivity.
  - rewrite replace_phone_long by (try apply strip_all_digits; exact Hl).
    cbn [app forallb]. change (is_digit 43) with false.
    rewrite andb_false_r. reflexivity.
Qed.

Lemma In_concat_intro {A} (x : A) (l : list A) (ls : list (list A)) :
  In x l -> In l ls -> In x (List.concat ls).
Proof. intros Hx Hl. apply in_concat. exists l. auto. Qed.

(** X4: the [telephone] and [mobile] inputs of the corporate form store
    [formatPhoneNumber] of what is typed, and that value never passes the
    schema's 14-digit test: whatever is typed, validation reports the
    field's error. *)
Theorem corporate_phone_inputs_rejected (zod_email : jsstr -> bool) (r : Corporate.t)
    (typed : jsstr) :
  In ([Key "telephone"], Message "Phone number must be 14 digits including country code")
     (validateCorporate zod_email (Corporate.set_telephone (formatPhoneNumber typed) r)) /\
  In ([Key "mobile"], Message "Mobile number must be 14 digits")
     (validateCorporate zod_email (Corporate.set_mobile (formatPhoneNumber typed) r)).
Proof.
  split; unfold validateCorporate; eapply In_concat_intro.
  2: (do 5 right; left; reflexivity).
  3: (do 6 right; left; reflexivity).
  - unfold at_key, check. unfold Corporate.set_telephone; cbn [Corporate.telephone].
    rewrite formatPhoneNumber_not_14_digits. left. reflexivity.
  - unfold at_key, check. unfold Corporate.set_mobile; cbn [Corporate.mobile].
    rewrite formatPhoneNumber_not_14_digits. left. reflexivity.
Qed.

(** X5: the output of [formatMobileNumber] never passes the individual
    schema's mobile test [/^\d{10}$/]: with fewer than 10 digits it is too
    short, and with 10 or more it contains a space. *)
Theorem formatMobileNumber_not_10_digits (s : jsstr) :
  digits_exactly 10 (formatMobileNumber s) = false.
Proof.
  unfold formatMobileNumber, digits_exactly. cbv zeta.
  destruct (Nat.lt_ge_cases (List.length (strip_non_digits s)) 10) as [Hl|Hl].
  - rewrite replace_mobile_short by exact Hl.
    replace (List.length (strip_non_digits s) =? 10)%nat with false
      by (symmetry; apply Nat.eqb_neq; lia).
    reflexivity.
  - rewrite replace_mobile_long by (try apply strip_all_digits; exact Hl).
    rewrite !forallb_app. change (forallb is_digit [32]) with false.
    rewrite andb_false_l, !andb_false_r. reflexivity.
Qed.

(** *** The individual form controller: what its flags track *)

Lemma handleAddressTimeChange_keeps (st : ui) :
  showCommunicationAddress (handleAddressTimeChange st) = showCommunicationAddress st /\
  showSecondNationality (handleAddressTimeChange st) = showSecondNationality st /\
  Individual.isCommunicationAddress (values (handleAddressTimeChange st)) =
    Individual.isCommunicationAddress (values st) /\
  Individual.communicationAddress (values (handleAddressTimeChange st)) =
    Individual.communicationAddress (values st) /\
  Individual.hasDualNationality (values (handleAddressTimeChange st)) =
    Individual.hasDualNationality (values st).
Proof.
  unfold handleAddressTimeChange.
  destruct (_ && _); [cbn; auto 6|].
  destruct (_ && _); cbn; auto 6.
Qed.

Lemma apply_keeps_communication_flags (st : ui) (e : event) :
  showCommunicationAddress st = negb (Individual.isCommunicationAddress (values st)) ->
  (Individual.communicationAddress (values st) = None <-> showCommunicationAddress st = false) ->
  showCommunicationAddress (apply st e) =
    negb (Individual.isCommunicationAddress (values (apply st e))) /\
  (Individual.communicationAddress (values (apply st e)) = None <->
   showCommunicationAddress (apply st e) = false).
Proof.
  intros H1 H2.
  destruct e as [v|v| |i f|checked|checked|f]; cbn [apply].
  - destruct (handleAddressTimeChange_keeps
                (with_values (Individual.set_yearsAtAddress v (values st)) st))
      as (E1 & _ & E3 & E4 & _).
    rewrite E1, E3, E4. cbn. tauto.
  - destruct (handleAddressTimeChange_keeps
                (with_values (Individual.set_monthsAtAddress v (values st)) st))
      as (E1 & _ & E3 & E4 & _).
    rewrite E1, E3, E4. cbn. tauto.
  - unfold addPreviousAddress.
    destruct (_ <? 3)%nat; cbn; tauto.
  - cbn. tauto.
  - destruct checked; cbn; split; try reflexivity; split; congruence.
  - destruct checked; cbn; tauto.
  - cbn. tauto.
Qed.

(** X7: in every state the form reaches from its defaults, the
    communication-address section is shown exactly when
    [isCommunicationAddress] is unchecked, and [communicationAddress] is
    undefined exactly when the section is hidden. *)
Theorem communication_section_tracks_checkbox (es : list event) :
  let st := run initial es in
  showCommunicationAddress st = negb (Individual.isCommunicationAddress (values st)) /\
  (Individual.communicationAddress (values st) = None <-> showCommunicationAddress st = false).
Proof.
  cbv zeta. unfold run.
  assert (Hgen : forall st,
    showCommunicationAddress st = negb (Individual.isCommunicationAddress (values st)) ->
    (Individual.communicationAddress (values st) = None <-> showCommunicationAddress st = false) ->
    showCommunicationAddress (fold_left apply es st) =
      negb (Individual.isCommunicationAddress (values (fold_left apply es st))) /\
    (Individual.communicationAddress (values (fold_left apply es st)) = None <->
     showCommunicationAddress (fold_left apply es st) = false)).
  { induction es as [|e es IH]; intros st H1 H2; [auto|].
    cbn [fold_left]. destruct (apply_keeps_communication_flags st e H1 H2) as [H1' H2'].
    apply IH; assumption. }
  apply Hgen; [reflexivity | split; reflexivity].
Qed.

Lemma apply_keeps_nationality_flag (st : ui) (e : event) :
  showSecondNationality st = Individual.hasDualNationality (values st) ->
  showSecondNationality (apply st e) = Individual.hasDualNationality (values (apply st e)).
Proof.
  intro H.
  destruct e as [v|v| |i f|checked|checked|f]; cbn [apply].
  - destruct (handleAddressTimeChange_keeps
                (with_values (Individual.set_yearsAtAddress v (values st)) st))
      as (_ & E2 & _ & _ & E5).
    rewrite E2, E5. cbn. exact H.
  - destruct (handleAddressTimeChange_keeps
                (with_values (Individual.set_monthsAtAddress v (values st)) st))
      as (_ & E2 & _ & _ & E5).
    rewrite E2, E5. cbn. exact H.
  - unfold addPreviousAddress.
    destruct (_ <? 3)%nat; cbn; exact H.
  - cbn. exact H.
  - cbn. exact H.
  - destruct checked; cbn; reflexivity.
  - cbn. exact H.
Qed.

(** X8: in every state the form reaches from its defaults, the
    second-nationality field is shown exactly when [hasDualNationality] is
    checked. *)
Theorem second_nationality_tracks_checkbox (es : list event) :
  let st := run initial es in
  showSecondNationality st = Individual.hasDualNationality (values st).
Proof.
  cbv zeta. unfold run.
  assert (Hgen : forall st,
    showSecondNationality st = Individual.hasDualNationality (values st) ->
    showSecondNationality (fold_left apply es st) =
      Individual.hasDualNationality (values (fold_left apply es st))).
  { induction es as [|e es IH]; intros st H; [exact H|].
    cbn [fold_left]. apply IH, apply_keeps_nationality_flag, H. }
  apply Hgen. reflexivity.
Qed.

Lemma apply_keeps_previous_section (st : ui) (e : event) :
  enabled st e = true ->
  (showPreviousAddresses st = false -> Individual.previousAddresses (values st) = []) ->
  (showPreviousAddresses st = true ->
   (1 <= List.length (Individual.previousAddresses (values st)) <= 3)%nat) ->
  (showPreviousAddresses (apply st e) = false ->
   Individual.previousAddresses (values (apply st e)) = []) /\
  (showPreviousAddresses (apply st e) = true ->
   (1 <= List.length (Individual.previousAddresses (values (apply st e))) <= 3)%nat).
Proof.
  intros He H1 H2.
  assert (Hh : forall st1,
    showPreviousAddresses st1 = showPreviousAddresses st ->
    Individual.previousAddresses (values st1) = Individual.previousAddresses (values st) ->
    (showPreviousAddresses (handleAddressTimeChange st1) = false ->
     Individual.previousAddresses (values (handleAddressTimeChange st1)) = []) /\
    (showPreviousAddresses (handleAddressTimeChange st1) = true ->
     (1 <= List.length (Individual.previousAddresses (values (handleAddressTimeChange st1))) <= 3)%nat)).
  { intros st1 E1 E2. unfold handleAddressTimeChange.
    destruct (_ && _); [cbn; split; [discriminate | intros _; lia]|].
    destruct (_ && _); [cbn; split; [reflexivity | discriminate]|].
    rewrite E1, E2. split; assumption. }
  destruct e as [v|v| |i f|checked|checked|f]; cbn [apply].
  - apply Hh; reflexivity.
  - apply Hh; reflexivity.
  - cbn [enabled] in He. apply andb_true_iff in He as [Hs Hl].
    apply Nat.ltb_lt in Hl.
    unfold addPreviousAddress. rewrite (proj2 (Nat.ltb_lt _ _) Hl).
    cbn. rewrite length_app. cbn. split; [congruence | lia].
  - cbn. rewrite update_nth_length.
    split; [intro Hs; rewrite (H1 Hs); destruct i; reflexivity | exact H2].
  - destruct checked; cbn; split; assumption.
  - destruct checked; cbn; split; assumption.
  - cbn. split; assumption.
Qed.

(** X9: as long as each event is fired while its input is rendered (the
    previous-address inputs and the add button only while the section is
    shown, the button only below 3 entries), the section is hidden only
    with no previous address, and shown only with 1 to 3 of them. *)
Theorem previous_address_section_consistent (es : list event) :
  all_enabled initial es = true ->
  let st := run initial es in
  (showPreviousAddresses st = false -> Individual.previousAddresses (values st) = []) /\
  (showPreviousAddresses st = true ->
   (1 <= List.length (Individual.previousAddresses (values st)) <= 3)%nat).
Proof.
  cbv zeta. unfold run.
  assert (Hgen : forall st,
    all_enabled st es = true ->
    (showPreviousAddresses st = false -> Individual.previousAddresses (values st) = []) ->
    (showPreviousAddresses st = true ->
     (1 <= List.length (Individual.previousAddresses (values st)) <= 3)%nat) ->
    (showPreviousAddresses (fold_left apply es st) = false ->
     Individual.previousAddresses (values (fold_left apply es st)) = []) /\
    (showPreviousAddresses (fold_left apply es st) = true ->
     (1 <= List.length (Individual.previousAddresses (values (fold_left apply es st))) <= 3)%nat)).
  { induction es as [|e es IH]; intros st Ha H1 H2; [split; assumption|].
    cbn [all_enabled] in Ha. apply andb_true_iff in Ha as [He Ha].
    destruct (apply_keeps_previous_section st e He H1 H2) as [H1' H2'].
    cbn [fold_left]. apply IH; assumption. }
  intro Ha. apply Hgen; [exact Ha | reflexivity | discriminate].
Qed.

Lemma previous_address_section_consistent_witness :
  all_enabled initial [ChangeYearsAtAddress (Fin 1); ClickAddPreviousAddress;
                       ClickAddPreviousAddress] = true /\
  (showPreviousAddresses (run initial [ChangeYearsAtAddress (Fin 1); ClickAddPreviousAddress;
                                       ClickAddPreviousAddress]) = true ->
   (1 <= List.length (Individual.previousAddresses
          (values (run initial [ChangeYearsAtAddress (Fin 1); ClickAddPreviousAddress;
                                ClickAddPreviousAddress]))) <= 3)%nat).
Proof.
  assert (H : all_enabled initial [ChangeYearsAtAddress (Fin 1); ClickAddPreviousAddress;
                                   ClickAddPreviousAddress] = true) by reflexivity.
  split; [exact H|].
  exact (proj2 (previous_address_section_consistent _ H)).
Defined.

(** *** What the handlers do to validation *)

Lemma in_at_key (k : string) (is : list issue) (e : error) :
  In e (at_key k is) -> fst e = [Key k].
Proof.
  unfold at_key. intro H. apply in_map_iff in H as [i [<- _]]. reflexivity.
Qed.

Lemma in_concat_mapi_at_path {A} (k : string) (g : A -> list error) (i : nat)
    (l : list A) (e : error) :
  In e (List.concat (mapi_from i (fun i a => at_path [Key k; Idx i] (g a)) l)) ->
  hd_error (fst e) = Some (Key k).
Proof.
  revert i; induction l as [|a l IH]; intros i H; [destruct H|].
  cbn [mapi_from List.concat] in H. apply in_app_iff in H as [H|H].
  - unfold at_path in H. apply in_map_iff in H as [e' [<- _]]. reflexivity.
  - exact (IH _ H).
Qed.

(** X10: unchecking [isCommunicationAddress] makes the form invalid until
    the communication address is filled in: its four required fields are
    reported; checking it again removes every issue under
    [communicationAddress]. *)
Theorem communication_address_validation (zod_email : jsstr -> bool) (st : ui) :
  let v := values (handleCommunicationAddressChange false st) in
  In ([Key "communicationAddress"; Key "address1"], Message "Address line 1 is required")
     (validateIndividual zod_email v) /\
  In ([Key "communicationAddress"; Key "address2"], Message "Address line 2 is required")
     (validateIndividual zod_email v) /\
  In ([Key "communicationAddress"; Key "postcode"], Message "Postcode is required")
     (validateIndividual zod_email v) /\
  In ([Key "communicationAddress"; Key "country"], Message "Country is required")
     (validateIndividual zod_email v) /\
  (forall e, In e (validateIndividual zod_email (values (handleCommunicationAddressChange true st))) ->
   hd_error (fst e) <> Some (Key "communicationAddress")).
Proof.
  cbv zeta.
  assert (Hc : forall x,
    In x (at_path [Key "communicationAddress"]
            (validateCommunicationAddress emptyCommunicationAddress)) ->
    In x (validateIndividual zod_email (values (handleCommunicationAddressChange false st)))).
  { intros x Hx. unfold validateIndividual. eapply In_concat_intro; [exact Hx|].
    do 21 right. left. reflexivity. }
  split; [|split; [|split; [|split]]]; [apply Hc .. |].
  - left. reflexivity.
  - right. left. reflexivity.
  - do 2 right. left. reflexivity.
  - do 3 right. left. reflexivity.
  - intros e He. unfold validateIndividual in He.
    apply in_concat in He as [l [Hl He]].
    cbn [In] in Hl.
    repeat (destruct Hl as [<-|Hl];
            [first [ rewrite (in_at_key _ _ _ He); discriminate
                   | rewrite (in_concat_mapi_at_path _ _ _ _ _ He); discriminate
                   | destruct He ] |]).
    destruct Hl.
Qed.

Lemma mapi_from_app {A B} (i : nat) (f : nat -> A -> B) (l1 l2 : list A) :
  mapi_from i f (l1 ++ l2) = mapi_from i f l1 ++ mapi_from (i + List.length l1) f l2.
Proof.
  revert i; induction l1 as [|a l1 IH]; intro i; cbn [app mapi_from List.length].
  - rewrite Nat.add_0_r. reflexivity.
  - rewrite IH, Nat.add_succ_r. reflexivity.
Qed.

(** X11: below 3 entries, "Add Previous Address" makes the form invalid
    until the new entry is filled in: the entry it appends, at index [n]
    (the former number of entries), reports its four required fields. *)
Theorem addPreviousAddress_entry_required (zod_email : jsstr -> bool) (st : ui) :
  let n := List.length (Individual.previousAddresses (values st)) in
  (n < 3)%nat ->
  let v := values (addPreviousAddress st) in
  In ([Key "previousAddresses"; Idx n; Key "address1"], Message "Address line 1 is required")
     (validateIndividual zod_email v) /\
  In ([Key "previousAddresses"; Idx n; Key "address2"], Message "Address line 2 is required")
     (validateIndividual zod_email v) /\
  In ([Key "previousAddresses"; Idx n; Key "postcode"], Message "Postcode is required")
     (validateIndividual zod_email v) /\
  In ([Key "previousAddresses"; Idx n; Key "country"], Message "Country is required")
     (validateIndividual zod_email v).
Proof.
  cbv zeta. intro Hn.
  unfold addPreviousAddress. rewrite (proj2 (Nat.ltb_lt _ _) Hn).
  set (prev := Individual.previousAddresses (values st)) in *.
  assert (Hp : forall x,
    In x (at_path [Key "previousAddresses"; Idx (List.length prev)]
            (validatePreviousAddress emptyPreviousAddress)) ->
    In x (validateIndividual zod_email
            (values (with_values (Individual.set_previousAddresses
                                    (prev ++ [emptyPreviousAddress]) (values st)) st)))).
  { intros x Hx. unfold validateIndividual. eapply In_concat_intro.
    2: (do 20 right; left; reflexivity).
    cbn [values with_values]. unfold Individual.set_previousAddresses.
    cbn [Individual.previousAddresses].
    rewrite mapi_from_app, concat_app. apply in_or_app. right.
    cbn [mapi_from List.concat]. rewrite app_nil_r. exact Hx. }
  split; [|split; [|split]]; apply Hp.
  - left. reflexivity.
  - right. left. reflexivity.
  - do 2 right. left. reflexivity.
  - do 3 right. left. reflexivity.
Qed.

Lemma addPreviousAddress_entry_required_witness :
  (List.length (Individual.previousAddresses (values initial)) < 3)%nat /\
  In ([Key "previousAddresses"; Idx 0; Key "address1"], Message "Address line 1 is required")
     (validateIndividual (fun _ => true) (values (addPreviousAddress initial))).
Proof.
  assert (H : (List.length (Individual.previousAddresses (values initial)) < 3)%nat)
    by (cbn; lia).
  split; [exact H|].
  exact (proj1 (addPreviousAddress_entry_required (fun _ => true) initial H)).
Defined.

(** *** The array-valued fields *)

Lemma str_eqb_true (a b : jsstr) : str_eqb a b = true <-> a = b.
Proof. unfold str_eqb. destruct (list_eq_dec Z.eq_dec a b); split; congruence. Qed.

Lemma str_eqb_false (a b : jsstr) : str_eqb a b = false <-> a <> b.
Proof. unfold str_eqb. destruct (list_eq_dec Z.eq_dec a b); split; congruence. Qed.

Lemma includes_In (x : jsstr) (l : list jsstr) : includes x l = true <-> In x l.
Proof.
  unfold includes. rewrite existsb_exists. split.
  - intros [y [Hy E]]. apply str_eqb_true in E. subst. exact Hy.
  - intro H. exists x. split; [exact H | apply str_eqb_true; reflexivity].
Qed.

Lemma includes_filter_ne (p q : jsstr) (l : list jsstr) :
  includes p (filter (fun v => negb (str_eqb v q)) l) =
    if str_eqb p q then false else includes p l.
Proof.
  unfold includes.
  induction l as [|x l IH]; cbn [filter existsb]; [destruct (str_eqb p q); reflexivity|].
  destruct (str_eqb x q) eqn:Ex; cbn [negb existsb]; rewrite IH.
  - apply str_eqb_true in Ex. subst x.
    destruct (str_eqb p q); reflexivity.
  - destruct (str_eqb p q) eqn:Ep; [|reflexivity].
    apply str_eqb_true in Ep. subst p. rewrite (proj2 (str_eqb_false _ _)); [reflexivity|].
    intro E. subst x. rewrite (proj2 (str_eqb_true q q) eq_refl) in Ex. discriminate.
Qed.

Lemma filter_ne_absent (c : jsstr) (l : list jsstr) :
  includes c l = false -> filter (fun v => negb (str_eqb v c)) l = l.
Proof.
  unfold includes. induction l as [|x l IH]; cbn [existsb filter]; [reflexivity|].
  intro H. apply orb_false_iff in H as [Hx Hl].
  replace (str_eqb x c) with false.
  - cbn [negb]. rewrite IH by exact Hl. reflexivity.
  - symmetry. apply str_eqb_false. intro E. subst x.
    rewrite (proj2 (str_eqb_true c c) eq_refl) in Hx. discriminate.
Qed.

(** X12: a marketing-preference checkbox sets the inclusion of its own
    value to its new checked state and leaves every other preference as
    it was. *)
Theorem toggleMarketingPreference_includes (pref p : jsstr) (checked : bool)
    (currentValue : list jsstr) :
  includes p (toggleMarketingPreference pref checked currentValue) =
    if str_eqb p pref then checked else includes p currentValue.
Proof.
  unfold toggleMarketingPreference. destruct checked.
  - unfold includes. rewrite existsb_app. cbn [existsb]. rewrite orb_false_r.
    destruct (str_eqb p pref); [apply orb_true_r | apply orb_false_r].
  - apply includes_filter_ne.
Qed.

(** X13: selecting a tax contributing country never creates a duplicate:
    from a list without duplicates the result has none, it contains the
    selected country, and selecting the same country again changes
    nothing. *)
Theorem selectTaxContributingCountry_no_duplicates (value : jsstr) (currentValue : list jsstr) :
  NoDup currentValue ->
  NoDup (selectTaxContributingCountry value currentValue) /\
  includes value (selectTaxContributingCountry value currentValue) = true /\
  selectTaxContributingCountry value (selectTaxContributingCountry value currentValue) =
    selectTaxContributingCountry value currentValue.
Proof.
  intro H. unfold selectTaxContributingCountry.
  destruct (includes value currentValue) eqn:E; cbn [negb].
  - rewrite E. cbn [negb]. auto.
  - assert (Hin : includes value (currentValue ++ [value]) = true).
    { apply includes_In, in_or_app. right. left. reflexivity. }
    rewrite Hin. cbn [negb]. split; [|split; reflexivity].
    apply NoDup_app; [exact H | repeat constructor; intros [] |].
    intros a Ha [<-|[]]. apply includes_In in Ha. congruence.
Qed.

Lemma selectTaxContributingCountry_no_duplicates_witness :
  NoDup [js "GB"; js "FR"] /\
  selectTaxContributingCountry (js "US") [js "GB"; js "FR"] = [js "GB"; js "FR"; js "US"] /\
  NoDup (selectTaxContributingCountry (js "US") [js "GB"; js "FR"]).
Proof.
  assert (H : NoDup [js "GB"; js "FR"]).
  { constructor; [cbn; intros [E|[]]; discriminate|].
    constructor; [intros []|constructor]. }
  split; [exact H|]. split; [reflexivity|].
  exact (proj1 (selectTaxContributingCountry_no_duplicates (js "US") _ H)).
Defined.

(** X14: the Remove button of a selected tax country takes every copy of
    that country out of the list and keeps every other country. *)
Theorem removeTaxContributingCountry_includes (country x : jsstr) (fieldValue : list jsstr) :
  includes x (removeTaxContributingCountry country fieldValue) =
    if str_eqb x country then false else includes x fieldValue.
Proof. apply includes_filter_ne. Qed.

(** X15: selecting a tax country that was not in the list and then
    removing it gives back the list as it was. *)
Theorem select_then_remove_tax_country (country : jsstr) (currentValue : list jsstr) :
  includes country currentValue = false ->
  removeTaxContributingCountry country (selectTaxContributingCountry country currentValue) =
    currentValue.
Proof.
  intro H. unfold selectTaxContributingCountry, removeTaxContributingCountry.
  rewrite H. cbn [negb]. rewrite filter_app, filter_ne_absent by exact H.
  cbn [filter]. rewrite (proj2 (str_eqb_true country country) eq_refl).
  cbn [negb]. apply app_nil_r.
Qed.

Lemma select_then_remove_tax_country_witness :
  includes (js "US") [js "GB"; js "FR"] = false /\
  removeTaxContributingCountry (js "US")
    (selectTaxContributingCountry (js "US") [js "GB"; js "FR"]) = [js "GB"; js "FR"].
Proof.
  assert (H : includes (js "US") [js "GB"; js "FR"] = false) by reflexivity.
  split; [exact H|]. exact (select_then_remove_tax_country _ _ H).
Defined.

Lemma pickAll_cons_stored (x : jsstr) (r picks : list jsstr) :
  pickAll (x :: r) picks = x :: r ++ filter (fun v => negb (str_eqb v x)) picks.
Proof.
  unfold pickAll. revert r.
  induction picks as [|p picks IH]; intro r; cbn [fold_left filter].
  - rewrite app_nil_r. reflexivity.
  - unfold pickSelection at 2. cbn [displayedSelection hd_error].
    destruct (str_eqb p x); cbn [negb].
    + apply IH.
    + unfold appendSelection. rewrite <- app_comm_cons, IH, <- app_assoc.
      reflexivity.
Qed.

Lemma pickAll_result (currentValue picks : list jsstr) :
  pickAll currentValue picks =
    match currentValue, picks with
    | [], [] => []
    | [], p :: ps => p :: filter (fun v => negb (str_eqb v p)) ps
    | x :: _, _ => currentValue ++ filter (fun v => negb (str_eqb v x)) picks
    end.
Proof.
  destruct currentValue as [|x r].
  - destruct picks as [|p ps]; [reflexivity|].
    change (pickAll [] (p :: ps)) with (pickAll [p] ps).
    apply pickAll_cons_stored.
  - apply pickAll_cons_stored.
Qed.

(** X16: in the corporate multi-selects a pick equal to the displayed first
    stored item is ignored and every other pick is appended, repeats of
    other items included; so a run of picks stores the earlier values (or,
    from an empty list, the first pick) followed by the remaining picks that
    differ from the first stored item, in order, and the select keeps
    displaying that first item. *)
Theorem pickAll_appends (currentValue picks : list jsstr) :
  pickAll currentValue picks =
    match currentValue, picks with
    | [], [] => []
    | [], p :: ps => p :: filter (fun v => negb (str_eqb v p)) ps
    | x :: _, _ => currentValue ++ filter (fun v => negb (str_eqb v x)) picks
    end /\
  displayedSelection (pickAll currentValue picks) =
    match currentValue with [] => hd_error picks | x :: _ => Some x end.
Proof.
  pose proof (pickAll_result currentValue picks) as E.
  split; [exact E|]. rewrite E.
  destruct currentValue; [destruct picks|]; reflexivity.
Qed.

(** *** [reference-data.ts] *)

(** X17: within each reference list the codes are distinct, so each
    select option stores a different value. *)
Theorem reference_codes_distinct :
  NoDup (map ReferenceData.value ReferenceData.countries) /\
  NoDup (map ReferenceData.value ReferenceData.addressTypes) /\
  NoDup (map ReferenceData.value ReferenceData.titles) /\
  NoDup (map ReferenceData.value ReferenceData.genderOptions) /\
  NoDup (map ReferenceData.value ReferenceData.employmentTypes) /\
  NoDup (map ReferenceData.value ReferenceData.marketingPreferences) /\
  NoDup (map ReferenceData.value ReferenceData.nationalities).
Proof.
  repeat split; cbn; repeat constructor; cbn; intuition discriminate.
Qed.

(** X18: the label shown for a selected tax country is the label of that
    country: looking up the code of any entry of [countries] finds that
    entry. *)
Theorem countryLabel_of_code (c : ReferenceData.ReferenceItem) :
  In c ReferenceData.countries ->
  ReferenceData.countryLabel (ReferenceData.value c) = Some (ReferenceData.label c).
Proof.
  unfold ReferenceData.countries. cbn [In].
  intros [<-|[<-|[<-|[<-|[<-|[]]]]]]; reflexivity.
Qed.

Lemma countryLabel_of_code_witness :
  In (ReferenceData.item "GB" "United Kingdom") ReferenceData.countries /\
  ReferenceData.countryLabel (js "GB") = Some (js "United Kingdom").
Proof.
  assert (H : In (ReferenceData.item "GB" "United Kingdom") ReferenceData.countries)
    by (left; reflexivity).
  split; [exact H|]. exact (countryLabel_of_code _ H).
Defined.

Lemma communication_address_validation_witness :
  In ([Key "communicationAddress"; Key "address1"], Message "Address line 1 is required")
     (validateIndividual (fun _ => true) (values (handleCommunicationAddressChange false initial))) /\
  (forall e, In e (validateIndividual (fun _ => true)
                     (values (handleCommunicationAddressChange true initial))) ->
   hd_error (fst e) <> Some (Key "communicationAddress")).
Proof.
  destruct (communication_address_validation (fun _ => true) initial) as (H1 & _ & _ & _ & H5).
  split; [exact H1 | exact H5].
Defined.
